(** * MMAudio MCP server: request/response contract layer

    A shallow embedding of [server/index.js]: the zod schemas of the three
    tools, configuration loading from the process environment, the three
    tool handlers and the tool-call dispatcher, followed by the properties
    the specification states about them.

    JavaScript values are dynamically typed, and the embedding keeps them
    so: a [value] is what [JSON.parse] can produce (plus [NaN], which
    [parseInt] can produce), and [undefined] is the [None] of
    [option value].  Numbers are the exact rational a double denotes;
    comparisons of doubles agree with comparisons of those rationals. *)

From Stdlib Require Import ZArith QArith List String Ascii Bool Lia.
From Stdlib Require Import DecimalString.
Import ListNotations.

Set Warnings "-register-all".

Local Open Scope string_scope.
Local Open Scope Z_scope.

(* ================================================================== *)
(** * JavaScript values *)
(* ================================================================== *)

Inductive value : Type :=
| VNull
| VBool (b : bool)
| VNum (q : Q)
| VNaN
| VStr (s : string)
| VArr (items : list value)
| VObj (fields : list (string * value)).

Module JS.

(** A property list read as an object: the first binding of a key wins. *)
Fixpoint lookup (k : string) (fields : list (string * value)) : option value :=
  match fields with
  | [] => None
  | (k', v) :: rest => if String.eqb k k' then Some v else lookup k rest
  end.

(** [obj[k] = v] on a property list: an existing key keeps its position. *)
Fixpoint set_field (k : string) (v : value) (fields : list (string * value))
  : list (string * value) :=
  match fields with
  | [] => [(k, v)]
  | (k', v') :: rest =>
      if String.eqb k k' then (k, v) :: rest
      else (k', v') :: set_field k v rest
  end.

Definition keys (fields : list (string * value)) : list string :=
  map fst fields.

(** [x.k] for a value that is neither [null] nor [undefined].  None of the
    keys the server reads is a method or an index of a primitive, an array
    or [Object.prototype], so only own properties of objects answer. *)
Definition get_prop (x : value) (k : string) : option value :=
  match x with
  | VObj fields => lookup k fields
  | _ => None
  end.

(** [x?.k] *)
Definition get_prop_opt (x : option value) (k : string) : option value :=
  match x with
  | None | Some VNull => None
  | Some v => get_prop v k
  end.

Definition Qis_zero (q : Q) : bool := Z.eqb (Qnum q) 0.

(** ToBoolean *)
Definition truthy (x : option value) : bool :=
  match x with
  | None => false
  | Some VNull => false
  | Some (VBool b) => b
  | Some (VNum q) => negb (Qis_zero q)
  | Some VNaN => false
  | Some (VStr s) => negb (String.eqb s "")
  | Some (VArr _) => true
  | Some (VObj _) => true
  end.

(** [a || b] *)
Definition or_else (a b : option value) : option value :=
  if truthy a then a else b.

(** Number.isInteger *)
Definition is_integer (q : Q) : bool :=
  Z.eqb (Z.rem (Qnum q) (Zpos (Qden q))) 0.

Definition Z_to_string (z : Z) : string :=
  NilZero.string_of_int (Z.to_int z).

Fixpoint join (sep : string) (parts : list string) : string :=
  match parts with
  | [] => ""
  | [p] => p
  | p :: rest => p ++ sep ++ join sep rest
  end.

(** [typeof]-like classification used by zod ([getParsedType]). *)
Definition parsedType (x : option value) : string :=
  match x with
  | None => "undefined"
  | Some VNull => "null"
  | Some (VBool _) => "boolean"
  | Some (VNum _) => "number"
  | Some VNaN => "nan"
  | Some (VStr _) => "string"
  | Some (VArr _) => "array"
  | Some (VObj _) => "object"
  end.

(** ** parseInt (radix omitted) *)

Definition is_space (c : ascii) : bool :=
  let n := nat_of_ascii c in
  (Nat.eqb n 9 || Nat.eqb n 10 || Nat.eqb n 11 || Nat.eqb n 12
   || Nat.eqb n 13 || Nat.eqb n 32)%bool.

Fixpoint skip_space (s : string) : string :=
  match s with
  | String c rest => if is_space c then skip_space rest else s
  | EmptyString => s
  end.

Definition digit_value (radix : Z) (c : ascii) : option Z :=
  let n := Z.of_nat (nat_of_ascii c) in
  let d :=
    if (48 <=? n) && (n <=? 57) then Some (n - 48)
    else if (97 <=? n) && (n <=? 122) then Some (n - 87)
    else if (65 <=? n) && (n <=? 90) then Some (n - 55)
    else None in
  match d with
  | Some v => if v <? radix then Some v else None
  | None => None
  end.

(** The longest prefix of digits; [None] when there is none (NaN). *)
Fixpoint digits (radix : Z) (s : string) (acc : option Z) : option Z :=
  match s with
  | EmptyString => acc
  | String c rest =>
      match digit_value radix c with
      | Some d =>
          digits radix rest
            (Some (match acc with Some a => a * radix + d | None => d end))
      | None => acc
      end
  end.

Definition parseInt (s : string) : option Z :=
  let s1 := skip_space s in
  let '(neg, s2) :=
    match s1 with
    | String "-" rest => (true, rest)
    | String "+" rest => (false, rest)
    | _ => (false, s1)
    end in
  let '(radix, s3) :=
    match s2 with
    | String "0" (String "x" rest) => (16, rest)
    | String "0" (String "X" rest) => (16, rest)
    | _ => (10, s2)
    end in
  option_map (fun n => if neg then - n else n) (digits radix s3 None).

Definition number_of_parse (r : option Z) : value :=
  match r with
  | Some n => VNum (inject_Z n)
  | None => VNaN
  end.

End JS.

(* ================================================================== *)
(** * Library behaviour the server relies on *)
(* ================================================================== *)

(** A zod issue as the handlers read it: [e.path] and [e.message]. *)
Record ZodIssue : Type := mkIssue {
  path : list string;
  message : string
}.

(** What Node and the libraries compute and the repository does not
    define: whether [new URL(s)] accepts [s] (zod's [.url()] check),
    [JSON.parse] (the text's value, or the message of the SyntaxError),
    [Number.prototype.toString] on numbers that are not small integers,
    and the [message] getter of a ZodError. *)
Class Platform : Type := {
  URL_parses : string -> bool;
  JSON_parse : string -> value + string;
  float_to_string : Q -> string;
  ZodError_message : list ZodIssue -> string
}.

Section WithPlatform.

Context {P : Platform}.

(** Number::toString: integers below 10^21 print in decimal. *)
Definition number_to_string (q : Q) : string :=
  if JS.is_integer q && (Z.abs (Qnum q / Zpos (Qden q)) <? 10 ^ 21)
  then JS.Z_to_string (Qnum q / Zpos (Qden q))
  else float_to_string q.

(** ToString *)
Fixpoint ToString (v : value) : string :=
  match v with
  | VNull => "null"
  | VBool true => "true"
  | VBool false => "false"
  | VNum q => number_to_string q
  | VNaN => "NaN"
  | VStr s => s
  | VArr items =>
      JS.join ","
        (map (fun x => match x with VNull => "" | _ => ToString x end) items)
  | VObj _ => "[object Object]"
  end.

(** A template literal's [${x}]. *)
Definition interpolate (x : option value) : string :=
  match x with
  | None => "undefined"
  | Some v => ToString v
  end.

(* ================================================================== *)
(** * zod: the schema constructors the server uses *)
(* ================================================================== *)

Inductive StringCheck : Type :=
| CheckMinLength (n : nat) (msg : option string)
| CheckUrl (msg : option string).

Inductive NumberCheck : Type :=
| CheckInt
| CheckMin (bound : Z)
| CheckMax (bound : Z).

Inductive ZodType : Type :=
| ZodString (checks : list StringCheck)
| ZodNumber (checks : list NumberCheck)
| ZodOptional (inner : ZodType)
| ZodNullable (inner : ZodType)
| ZodDefault (inner : ZodType) (defaultValue : value)
| ZodObject (shape : list (string * ZodType)).

Definition custom_or (msg : option string) (default : string) : string :=
  match msg with
  | Some m => m
  | None => default
  end.

(** zod's default error map for [invalid_type]. *)
Definition invalid_type (p : list string) (expected : string)
  (data : option value) : ZodIssue :=
  mkIssue p
    (match data with
     | None => "Required"
     | _ => "Expected " ++ expected ++ ", received " ++ JS.parsedType data
     end).

Definition string_check (p : list string) (s : string) (c : StringCheck)
  : list ZodIssue :=
  match c with
  | CheckMinLength n msg =>
      if Nat.ltb (String.length s) n
      then [mkIssue p
              (custom_or msg
                 ("String must contain at least "
                  ++ JS.Z_to_string (Z.of_nat n) ++ " character(s)"))]
      else []
  | CheckUrl msg =>
      if URL_parses s then [] else [mkIssue p (custom_or msg "Invalid url")]
  end.

(** [.min] and [.max] are inclusive bounds. *)
Definition number_check (p : list string) (q : Q) (c : NumberCheck)
  : list ZodIssue :=
  match c with
  | CheckInt =>
      if JS.is_integer q then []
      else [mkIssue p "Expected integer, received float"]
  | CheckMin bound =>
      if Qle_bool (inject_Z bound) q then []
      else [mkIssue p
              ("Number must be greater than or equal to "
               ++ JS.Z_to_string bound)]
  | CheckMax bound =>
      if Qle_bool q (inject_Z bound) then []
      else [mkIssue p
              ("Number must be less than or equal to "
               ++ JS.Z_to_string bound)]
  end.

(** [_parse]: the issues added to the context and the output value.  A
    type mismatch aborts the node with one issue; every check of a node of
    the right type is run; an object parses every key of its shape, in
    shape order, and copies only those keys (unknown keys are stripped),
    leaving out a key whose output is [undefined]. *)
Fixpoint parse_node (t : ZodType) (p : list string) (data : option value)
  {struct t} : list ZodIssue * option value :=
  match t with
  | ZodString checks =>
      match data with
      | Some (VStr s) => (flat_map (string_check p s) checks, data)
      | _ => ([invalid_type p "string" data], None)
      end
  | ZodNumber checks =>
      match data with
      | Some (VNum q) => (flat_map (number_check p q) checks, data)
      | _ => ([invalid_type p "number" data], None)
      end
  | ZodOptional inner =>
      match data with
      | None => ([], None)
      | _ => parse_node inner p data
      end
  | ZodNullable inner =>
      match data with
      | Some VNull => ([], Some VNull)
      | _ => parse_node inner p data
      end
  | ZodDefault inner defaultValue =>
      match data with
      | None => parse_node inner p (Some defaultValue)
      | _ => parse_node inner p data
      end
  | ZodObject shape =>
      match data with
      | Some (VObj fields) =>
          let fix parse_shape (sh : list (string * ZodType))
            : list ZodIssue * list (string * value) :=
            match sh with
            | [] => ([], [])
            | (k, tk) :: rest =>
                let '(issues_k, out_k) :=
                  parse_node tk (p ++ [k])%list (JS.lookup k fields) in
                let '(issues_rest, out_rest) := parse_shape rest in
                ((issues_k ++ issues_rest)%list,
                 match out_k with
                 | Some v => (k, v) :: out_rest
                 | None => out_rest
                 end)
            end in
          let '(issues, out) := parse_shape shape in
          (issues, Some (VObj out))
      | _ => ([invalid_type p "object" data], None)
      end
  end.

(** [schema.safeParse(data)]: success exactly when no issue was raised. *)
Definition safeParse (schema : ZodType) (data : option value)
  : option value + list ZodIssue :=
  match parse_node schema [] data with
  | ([], out) => inl out
  | (issues, _) => inr issues
  end.

Definition accepts (schema : ZodType) (data : option value) : bool :=
  match safeParse schema data with
  | inl _ => true
  | inr _ => false
  end.

End WithPlatform.

(* ================================================================== *)
(** * The server: errors, requests and the handler monad *)
(* ================================================================== *)

(** The [ErrorCode]s of the MCP SDK that the server throws. *)
Inductive ErrorCode : Type :=
| InvalidRequest
| MethodNotFound
| InvalidParams
| InternalError.

Definition code_number (c : ErrorCode) : Z :=
  match c with
  | InvalidRequest => -32600
  | MethodNotFound => -32601
  | InvalidParams => -32602
  | InternalError => -32603
  end.

(** What a handler can throw: a [ZodError] with its issues, an
    [McpError] with the code and message given to its constructor, or
    another JavaScript error ([Error], [TypeError], [SyntaxError],
    [FetchError]) with its name and message. *)
Inductive exn : Type :=
| ZodError (issues : list ZodIssue)
| McpError (code : ErrorCode) (msg : string)
| JsError (name : string) (msg : string).

(** The arguments of one [fetch] call.  [body] is the value handed to
    [JSON.stringify]; the text sent is its serialisation. *)
Record Request : Type := mkRequest {
  url : string;
  method : string;
  headers : list (string * string);
  body : option value;
  timeout : option value
}.

Record Response : Type := mkResponse {
  status : Z;
  text : string
}.

(** The upstream's answer to a request: a response, or a failure before
    any response (DNS, refused connection, timeout) with its message. *)
Inductive FetchOutcome : Type :=
| Responded (r : Response)
| NetworkFailure (msg : string).

(** [this.config] ([null] is [None]) and the requests sent so far. *)
Record World : Type := mkWorld {
  config : option value;
  calls : list Request
}.

Inductive result (A : Type) : Type :=
| Returned (a : A)
| Thrown (e : exn).

Arguments Returned {A} a.
Arguments Thrown {A} e.

Definition M (A : Type) : Type := World -> result A * World.

Definition ret {A} (a : A) : M A := fun w => (Returned a, w).

Definition throw {A} (e : exn) : M A := fun w => (Thrown e, w).

Definition bind {A B} (c : M A) (k : A -> M B) : M B :=
  fun w =>
    match c w with
    | (Returned a, w') => k a w'
    | (Thrown e, w') => (Thrown e, w')
    end.

(** [try { c } catch (error) { handler }] *)
Definition try_catch {A} (c : M A) (handler : exn -> M A) : M A :=
  fun w =>
    match c w with
    | (Returned a, w') => (Returned a, w')
    | (Thrown e, w') => handler e w'
    end.

Declare Scope js_scope.
Delimit Scope js_scope with js.

Notation "x <- c ;; k" := (bind c (fun x => k))
  (at level 61, c at next level, right associativity) : js_scope.
Notation "c ;; k" := (bind c (fun _ => k))
  (at level 61, right associativity) : js_scope.

Local Open Scope js_scope.

Definition this_config : M (option value) :=
  fun w => (Returned (config w), w).

Definition set_this_config (c : option value) : M unit :=
  fun w => (Returned tt, mkWorld c (calls w)).

(** The content a tool returns:
    [{ content: [{ type: 'text', text: JSON.stringify(payload, null, 2) }] }]. *)
Inductive ToolResult : Type :=
| TextContent (payload : value).

(** An object literal; a property whose value is [undefined] is left out,
    as [JSON.stringify] and property reads do not tell it from a missing
    one. *)
Fixpoint object (props : list (string * option value))
  : list (string * value) :=
  match props with
  | [] => []
  | (k, Some v) :: rest => (k, v) :: object rest
  | (_, None) :: rest => object rest
  end.

(** [x.k], a TypeError when [x] is [undefined] or [null]. *)
Definition member (x : option value) (k : string) : M (option value) :=
  match x with
  | None =>
      throw (JsError "TypeError"
               ("Cannot read properties of undefined (reading '" ++ k ++ "')"))
  | Some VNull =>
      throw (JsError "TypeError"
               ("Cannot read properties of null (reading '" ++ k ++ "')"))
  | Some v => ret (JS.get_prop v k)
  end.

Definition ok (r : Response) : bool :=
  (200 <=? status r) && (status r <? 300).

(* ================================================================== *)
(** * Schemas *)
(* ================================================================== *)

Definition ConfigSchema : ZodType :=
  ZodObject
    [ ("apiKey", ZodString [CheckMinLength 1 (Some "API key is required")]);
      ("baseUrl",
        ZodDefault (ZodString [CheckUrl None]) (VStr "https://mmaudio.net"));
      ("timeout",
        ZodDefault (ZodNumber [CheckMin 5000; CheckMax 300000])
          (VNum (inject_Z 60000))) ].

Definition VideoToAudioInputSchema : ZodType :=
  ZodObject
    [ ("video_url", ZodString [CheckUrl (Some "Invalid video URL")]);
      ("prompt", ZodString [CheckMinLength 1 (Some "Prompt is required")]);
      ("negative_prompt", ZodDefault (ZodOptional (ZodString [])) (VStr ""));
      ("seed", ZodNullable (ZodOptional (ZodNumber [CheckInt])));
      ("num_steps",
        ZodDefault (ZodNumber [CheckInt; CheckMin 1; CheckMax 50])
          (VNum (inject_Z 25)));
      ("duration",
        ZodDefault (ZodNumber [CheckMin 1; CheckMax 30]) (VNum (inject_Z 8)));
      ("cfg_strength",
        ZodDefault (ZodNumber [CheckMin 1; CheckMax 10]) (VNum (9 # 2))) ].

Definition TextToAudioInputSchema : ZodType :=
  ZodObject
    [ ("prompt", ZodString [CheckMinLength 1 (Some "Prompt is required")]);
      ("duration",
        ZodDefault (ZodNumber [CheckMin 1; CheckMax 30]) (VNum (inject_Z 8)));
      ("num_steps",
        ZodDefault (ZodNumber [CheckInt; CheckMin 1; CheckMax 50])
          (VNum (inject_Z 25)));
      ("cfg_strength",
        ZodDefault (ZodNumber [CheckMin 1; CheckMax 10]) (VNum (9 # 2)));
      ("negative_prompt", ZodDefault (ZodOptional (ZodString [])) (VStr ""));
      ("seed",
        ZodDefault (ZodOptional (ZodNumber [CheckInt])) (VNum (inject_Z 0))) ].

Definition AudioResponseSchema : ZodType :=
  ZodObject
    [ ("url", ZodString [CheckUrl None]);
      ("content_type", ZodString []);
      ("file_name", ZodString []);
      ("file_size", ZodNumber []) ].

Definition VideoToAudioResponseSchema : ZodType :=
  ZodObject [ ("video", AudioResponseSchema) ].

Definition TextToAudioResponseSchema : ZodType :=
  ZodObject [ ("audio", AudioResponseSchema) ].

(* ================================================================== *)
(** * The tool list *)
(* ================================================================== *)

Definition in_quotes (s : string) : string :=
  String "034"%char (s ++ String "034"%char "").

(** The answer of the [ListToolsRequestSchema] handler. *)
Definition listTools : value :=
  VObj
    [ ("tools", VArr
        [ VObj
            [ ("name", VStr "video_to_audio");
              ("description", VStr "Generate AI-powered audio from video content using MMAudio technology. Analyzes video frames and generates synchronized audio including sound effects, ambient noise, and atmospheric elements.");
              ("inputSchema", VObj
                 [ ("type", VStr "object");
                   ("properties", VObj
                      [ ("video_url", VObj
                           [ ("type", VStr "string");
                             ("format", VStr "uri");
                             ("description", VStr "URL of the video file to generate audio for (supports mp4, webm, avi, mov formats)") ]);
                        ("prompt", VObj
                           [ ("type", VStr "string");
                             ("description", VStr
                                ("Describe the audio you want to generate (e.g., "
                                 ++ in_quotes "forest sounds with birds chirping"
                                 ++ ", " ++ in_quotes "urban traffic noise"
                                 ++ ", " ++ in_quotes "peaceful ocean waves"
                                 ++ ")")) ]);
                        ("negative_prompt", VObj
                           [ ("type", VStr "string");
                             ("description", VStr "Describe what you want to avoid in the generated audio (optional)");
                             ("default", VStr "") ]);
                        ("seed", VObj
                           [ ("type", VStr "integer");
                             ("description", VStr "Random seed for reproducible results (optional)");
                             ("nullable", VBool true) ]);
                        ("num_steps", VObj
                           [ ("type", VStr "integer");
                             ("minimum", VNum (inject_Z 1));
                             ("maximum", VNum (inject_Z 50));
                             ("default", VNum (inject_Z 25));
                             ("description", VStr "Number of inference steps (higher = better quality, slower)") ]);
                        ("duration", VObj
                           [ ("type", VStr "number");
                             ("minimum", VNum (inject_Z 1));
                             ("maximum", VNum (inject_Z 30));
                             ("default", VNum (inject_Z 8));
                             ("description", VStr "Duration of generated audio in seconds") ]);
                        ("cfg_strength", VObj
                           [ ("type", VStr "number");
                             ("minimum", VNum (inject_Z 1));
                             ("maximum", VNum (inject_Z 10));
                             ("default", VNum (9 # 2));
                             ("description", VStr "Classifier-free guidance strength (higher = more adherence to prompt)") ]) ]);
                   ("required", VArr [VStr "video_url"; VStr "prompt"]) ]) ];
          VObj
            [ ("name", VStr "text_to_audio");
              ("description", VStr "Generate AI-powered audio content from text descriptions using MMAudio technology. Create sound effects, ambient audio, music, and atmospheric soundscapes from natural language descriptions.");
              ("inputSchema", VObj
                 [ ("type", VStr "object");
                   ("properties", VObj
                      [ ("prompt", VObj
                           [ ("type", VStr "string");
                             ("description", VStr
                                ("Describe the audio you want to generate (e.g., "
                                 ++ in_quotes "rain falling on leaves"
                                 ++ ", " ++ in_quotes "coffee shop ambiance"
                                 ++ ", " ++ in_quotes "futuristic sci-fi sounds"
                                 ++ ")")) ]);
                        ("duration", VObj
                           [ ("type", VStr "number");
                             ("minimum", VNum (inject_Z 1));
                             ("maximum", VNum (inject_Z 30));
                             ("default", VNum (inject_Z 8));
                             ("description", VStr "Duration of generated audio in seconds") ]);
                        ("num_steps", VObj
                           [ ("type", VStr "integer");
                             ("minimum", VNum (inject_Z 1));
                             ("maximum", VNum (inject_Z 50));
                             ("default", VNum (inject_Z 25));
                             ("description", VStr "Number of inference steps (higher = better quality, slower)") ]);
                        ("cfg_strength", VObj
                           [ ("type", VStr "number");
                             ("minimum", VNum (inject_Z 1));
                             ("maximum", VNum (inject_Z 10));
                             ("default", VNum (9 # 2));
                             ("description", VStr "Classifier-free guidance strength (higher = more adherence to prompt)") ]);
                        ("negative_prompt", VObj
                           [ ("type", VStr "string");
                             ("description", VStr "Describe what you want to avoid in the generated audio (optional)");
                             ("default", VStr "") ]);
                        ("seed", VObj
                           [ ("type", VStr "integer");
                             ("default", VNum (inject_Z 0));
                             ("description", VStr "Random seed for reproducible results") ]) ]);
                   ("required", VArr [VStr "prompt"]) ]) ];
          VObj
            [ ("name", VStr "validate_api_key");
              ("description", VStr "Validate MMAudio API key and check account credits/status");
              ("inputSchema", VObj
                 [ ("type", VStr "object");
                   ("properties", VObj
                      [ ("api_key", VObj
                           [ ("type", VStr "string");
                             ("description", VStr "MMAudio API key to validate (optional, uses configured key if not provided)") ]) ]);
                   ("required", VArr []) ]) ] ]) ].

(* ================================================================== *)
(** * class MMAudioServer *)
(* ================================================================== *)

Section MMAudioServer.

Context {P : Platform}.

(** [process.env], and how the upstream answers each request. *)
Variable env : list (string * string).
Variable net : Request -> FetchOutcome.

Fixpoint getenv_in (vars : list (string * string)) (k : string)
  : option value :=
  match vars with
  | [] => None
  | (k', v) :: rest => if String.eqb k k' then Some (VStr v) else getenv_in rest k
  end.

(** [process.env.k] *)
Definition process_env (k : string) : option value := getenv_in env k.

(** [error.message] *)
Definition error_message (e : exn) : string :=
  match e with
  | ZodError issues => ZodError_message issues
  | McpError code msg =>
      "MCP error " ++ JS.Z_to_string (code_number code) ++ ": " ++ msg
  | JsError _ msg => msg
  end.

(** [schema.parse(data)] *)
Definition zod_parse (schema : ZodType) (data : option value)
  : M (option value) :=
  match safeParse schema data with
  | inl out => ret out
  | inr issues => throw (ZodError issues)
  end.

(** [JSON.parse(s)], also the body of [response.json()] *)
Definition json_parse (s : string) : M value :=
  match JSON_parse s with
  | inl v => ret v
  | inr msg => throw (JsError "SyntaxError" msg)
  end.

(** [await fetch(...)]: the request goes out, and the promise rejects on
    a failure before any response. *)
Definition fetch (req : Request) : M Response :=
  fun w =>
    let w' := mkWorld (config w) (calls w ++ [req]) in
    match net req with
    | Responded r => (Returned r, w')
    | NetworkFailure msg => (Thrown (JsError "FetchError" msg), w')
    end.

(** [e.errors.map(e => `${e.path.join('.')}: ${e.message}`).join(', ')] *)
Definition format_issues (issues : list ZodIssue) : string :=
  JS.join ", "
    (map (fun e => JS.join "." (path e) ++ ": " ++ message e) issues).

Definition loadConfig : M unit :=
  try_catch
    (let config :=
       VObj (object
         [ ("apiKey",
             JS.or_else (process_env "MMAUDIO_API_KEY") (process_env "apiKey"));
           ("baseUrl",
             JS.or_else (process_env "MMAUDIO_BASE_URL")
               (JS.or_else (process_env "baseUrl")
                  (Some (VStr "https://mmaudio.net"))));
           ("timeout",
             Some (JS.number_of_parse
                     (JS.parseInt
                        (interpolate
                           (JS.or_else (process_env "MMAUDIO_TIMEOUT")
                              (JS.or_else (process_env "timeout")
                                 (Some (VStr "60000")))))))) ]) in
     parsed <- zod_parse ConfigSchema (Some config) ;;
     set_this_config parsed ;;
     apiKey <- member parsed "apiKey" ;;
     if negb (JS.truthy apiKey)
     then throw (JsError "Error"
       "MMAudio API key is required. Please set MMAUDIO_API_KEY environment variable.")
     else ret tt)
    (fun error =>
       throw (McpError InvalidRequest
                ("Configuration error: " ++ error_message error))).

Definition ensureConfigured : M unit :=
  cfg <- this_config ;;
  if negb (JS.truthy cfg) then loadConfig else ret tt.

Definition handleVideoToAudio (args : option value) : M ToolResult :=
  ensureConfigured ;;
  try_catch
    (input <- zod_parse VideoToAudioInputSchema args ;;
     cfg <- this_config ;;
     baseUrl <- member cfg "baseUrl" ;;
     apiKey <- member cfg "apiKey" ;;
     timeout_ms <- member cfg "timeout" ;;
     response <- fetch
       {| url := interpolate baseUrl ++ "/api/video-to-audio";
          method := "POST";
          headers :=
            [ ("Content-Type", "application/json");
              ("Authorization", "Bearer " ++ interpolate apiKey);
              ("User-Agent", "MMAudio-DXT/1.0.0") ];
          body := input;
          timeout := timeout_ms |} ;;
     if negb (ok response) then
       let errorText := text response in
       let errorMessage :=
         Some (VStr ("HTTP " ++ JS.Z_to_string (status response))) in
       errorMessage <-
         try_catch
           (errorData <- json_parse errorText ;;
            error <- member (Some errorData) "error" ;;
            ret (JS.or_else error errorMessage))
           (fun _ => ret (JS.or_else (Some (VStr errorText)) errorMessage)) ;;
       if status response =? 401 then
         throw (McpError InvalidRequest
                  "Invalid API key. Please check your MMAudio API key.")
       else if status response =? 403 then
         throw (McpError InvalidRequest
                  "Insufficient credits for video-to-audio generation.")
       else if status response =? 429 then
         throw (McpError InvalidRequest
                  "Rate limit exceeded. Please try again later.")
       else throw (JsError "Error" (interpolate errorMessage))
     else
       result <- json_parse (text response) ;;
       validatedResult <- zod_parse VideoToAudioResponseSchema (Some result) ;;
       video <- member validatedResult "video" ;;
       audio_url <- member video "url" ;;
       content_type <- member video "content_type" ;;
       file_name <- member video "file_name" ;;
       file_size <- member video "file_size" ;;
       duration <- member input "duration" ;;
       prompt <- member input "prompt" ;;
       ret (TextContent (VObj (object
         [ ("success", Some (VBool true));
           ("message", Some (VStr "Audio generated successfully from video"));
           ("result", Some (VObj (object
              [ ("audio_url", audio_url);
                ("content_type", content_type);
                ("file_name", file_name);
                ("file_size", file_size);
                ("duration", duration);
                ("prompt", prompt) ]))) ]))))
    (fun error =>
       match error with
       | ZodError issues =>
           throw (McpError InvalidParams
                    ("Invalid input parameters: " ++ format_issues issues))
       | _ => throw error
       end).

Definition handleTextToAudio (args : option value) : M ToolResult :=
  ensureConfigured ;;
  try_catch
    (input <- zod_parse TextToAudioInputSchema args ;;
     cfg <- this_config ;;
     baseUrl <- member cfg "baseUrl" ;;
     apiKey <- member cfg "apiKey" ;;
     timeout_ms <- member cfg "timeout" ;;
     response <- fetch
       {| url := interpolate baseUrl ++ "/api/text-to-audio";
          method := "POST";
          headers :=
            [ ("Content-Type", "application/json");
              ("Authorization", "Bearer " ++ interpolate apiKey);
              ("User-Agent", "MMAudio-DXT/1.0.0") ];
          body := input;
          timeout := timeout_ms |} ;;
     if negb (ok response) then
       let errorText := text response in
       let errorMessage :=
         Some (VStr ("HTTP " ++ JS.Z_to_string (status response))) in
       errorMessage <-
         try_catch
           (errorData <- json_parse errorText ;;
            error <- member (Some errorData) "error" ;;
            ret (JS.or_else error errorMessage))
           (fun _ => ret (JS.or_else (Some (VStr errorText)) errorMessage)) ;;
       if status response =? 401 then
         throw (McpError InvalidRequest
                  "Invalid API key. Please check your MMAudio API key.")
       else if status response =? 403 then
         throw (McpError InvalidRequest
                  "Insufficient credits for text-to-audio generation.")
       else if status response =? 429 then
         throw (McpError InvalidRequest
                  "Rate limit exceeded. Please try again later.")
       else throw (JsError "Error" (interpolate errorMessage))
     else
       result <- json_parse (text response) ;;
       validatedResult <- zod_parse TextToAudioResponseSchema (Some result) ;;
       audio <- member validatedResult "audio" ;;
       audio_url <- member audio "url" ;;
       content_type <- member audio "content_type" ;;
       file_name <- member audio "file_name" ;;
       file_size <- member audio "file_size" ;;
       duration <- member input "duration" ;;
       prompt <- member input "prompt" ;;
       ret (TextContent (VObj (object
         [ ("success", Some (VBool true));
           ("message", Some (VStr "Audio generated successfully from text"));
           ("result", Some (VObj (object
              [ ("audio_url", audio_url);
                ("content_type", content_type);
                ("file_name", file_name);
                ("file_size", file_size);
                ("duration", duration);
                ("prompt", prompt) ]))) ]))))
    (fun error =>
       match error with
       | ZodError issues =>
           throw (McpError InvalidParams
                    ("Invalid input parameters: " ++ format_issues issues))
       | _ => throw error
       end).

Definition handleValidateApiKey (args : option value) : M ToolResult :=
  override <- member args "api_key" ;;
  cfg <- this_config ;;
  let apiKey := JS.or_else override (JS.get_prop_opt cfg "apiKey") in
  if negb (JS.truthy apiKey) then
    throw (McpError InvalidRequest "No API key provided")
  else
    try_catch
      (response <- fetch
         {| url :=
              interpolate
                (JS.or_else (JS.get_prop_opt cfg "baseUrl")
                   (Some (VStr "https://mmaudio.net")))
              ++ "/api/credits";
            method := "GET";
            headers :=
              [ ("Authorization", "Bearer " ++ interpolate apiKey);
                ("User-Agent", "MMAudio-DXT/1.0.0") ];
            body := None;
            timeout := Some (VNum (inject_Z 10000)) |} ;;
       if status response =? 401 then
         ret (TextContent (VObj
           [ ("success", VBool false);
             ("valid", VBool false);
             ("message", VStr "Invalid API key");
             ("error", VStr "Authentication failed") ]))
       else if negb (ok response) then
         throw (JsError "Error"
                  ("HTTP " ++ JS.Z_to_string (status response) ++ ": "
                   ++ text response))
       else
         data <- json_parse (text response) ;;
         credits <- member (Some data) "credits" ;;
         ret (TextContent (VObj (object
           [ ("success", Some (VBool true));
             ("valid", Some (VBool true));
             ("message", Some (VStr "API key is valid"));
             ("credits", JS.or_else credits (Some (VStr "Unknown")));
             ("account_status", Some (VStr "Active")) ]))))
      (fun error =>
         ret (TextContent (VObj
           [ ("success", VBool false);
             ("valid", VBool false);
             ("message", VStr "Failed to validate API key");
             ("error", VStr (error_message error)) ]))).

(** The [CallToolRequestSchema] handler: [name] and [arguments] of
    [request.params]. *)
Definition callTool (name : string) (args : option value) : M ToolResult :=
  try_catch
    (if String.eqb name "video_to_audio" then handleVideoToAudio args
     else if String.eqb name "text_to_audio" then handleTextToAudio args
     else if String.eqb name "validate_api_key" then handleValidateApiKey args
     else throw (McpError MethodNotFound ("Unknown tool: " ++ name)))
    (fun error =>
       match error with
       | McpError _ _ => throw error
       | _ =>
           throw (McpError InternalError
                    ("Tool execution failed: " ++ error_message error))
       end).

(** [start()]: the configuration is loaded before the transport is
    connected; a failure ends the process with exit code 1. *)
Definition start (w : World) : World + Z :=
  match loadConfig w with
  | (Returned _, w') => inl w'
  | (Thrown _, _) => inr 1
  end.

End MMAudioServer.

(* ================================================================== *)
(** * A concrete platform and upstream, for closed examples *)
(* ================================================================== *)

Module Sample.

Definition quoted (s : string) : string :=
  String "034"%char (s ++ String "034"%char "").

(** [{"error":"boom"}] *)
Definition error_body : string :=
  "{" ++ quoted "error" ++ ":" ++ quoted "boom" ++ "}".

(** [{"video":{"url":"https://cdn.mmaudio.net/a.wav",
               "content_type":"audio/wav","file_name":"a.wav"}}] *)
Definition video_body_without_file_size : string :=
  "{" ++ quoted "video" ++ ":{"
  ++ quoted "url" ++ ":" ++ quoted "https://cdn.mmaudio.net/a.wav" ++ ","
  ++ quoted "content_type" ++ ":" ++ quoted "audio/wav" ++ ","
  ++ quoted "file_name" ++ ":" ++ quoted "a.wav" ++ "}}".

(** [{"audio":{"url":"https://cdn.mmaudio.net/a.wav",
               "content_type":"audio/wav","file_name":"a.wav",
               "file_size":4096}}] *)
Definition audio_body : string :=
  "{" ++ quoted "audio" ++ ":{"
  ++ quoted "url" ++ ":" ++ quoted "https://cdn.mmaudio.net/a.wav" ++ ","
  ++ quoted "content_type" ++ ":" ++ quoted "audio/wav" ++ ","
  ++ quoted "file_name" ++ ":" ++ quoted "a.wav" ++ ","
  ++ quoted "file_size" ++ ":4096}}".

(** [JSON.parse] on the three texts above; any other text used below
    ("Bad Gateway", the empty text) is not JSON. *)
Definition parse_text (s : string) : value + string :=
  if String.eqb s error_body then
    inl (VObj [("error", VStr "boom")])
  else if String.eqb s video_body_without_file_size then
    inl (VObj [("video", VObj [ ("url", VStr "https://cdn.mmaudio.net/a.wav");
                                ("content_type", VStr "audio/wav");
                                ("file_name", VStr "a.wav") ])])
  else if String.eqb s audio_body then
    inl (VObj [("audio", VObj [ ("url", VStr "https://cdn.mmaudio.net/a.wav");
                                ("content_type", VStr "audio/wav");
                                ("file_name", VStr "a.wav");
                                ("file_size", VNum (inject_Z 4096)) ])])
  else inr "Unexpected token".

(** [new URL(s)] on the strings used below: an [https://] or [http://]
    prefix followed by a host parses, a bare word does not. *)
Definition url_parses (s : string) : bool :=
  (String.prefix "https://" s && negb (String.eqb s "https://"))
  || (String.prefix "http://" s && negb (String.eqb s "http://")).

Definition float_text (q : Q) : string :=
  if Qeq_bool q (9 # 2) then "4.5" else "0.5".

(** Stands for zod's rendering of the issue list. *)
Definition zod_message (issues : list ZodIssue) : string :=
  JS.join "; " (map message issues).

Definition platform : Platform := {|
  URL_parses := url_parses;
  JSON_parse := parse_text;
  float_to_string := float_text;
  ZodError_message := zod_message
|}.

(** A process environment with the credential only. *)
Definition env : list (string * string) :=
  [("MMAUDIO_API_KEY", "sk-test")].

(** The configuration [loadConfig] derives from [env]. *)
Definition loaded : value :=
  VObj [ ("apiKey", VStr "sk-test");
         ("baseUrl", VStr "https://mmaudio.net");
         ("timeout", VNum (inject_Z 60000)) ].

Definition configured : World := mkWorld (Some loaded) [].

Definition unconfigured : World := mkWorld None [].

(** An upstream that answers every request with the given response. *)
Definition answering (st : Z) (txt : string) : Request -> FetchOutcome :=
  fun _ => Responded (mkResponse st txt).

(** The arguments [{prompt: "rain on leaves"}]. *)
Definition rain_on_leaves : option value :=
  Some (VObj [("prompt", VStr "rain on leaves")]).

(** The body sent for them: the prompt and the five defaults. *)
Definition rain_on_leaves_body : option value :=
  Some (VObj [ ("prompt", VStr "rain on leaves");
               ("duration", VNum (inject_Z 8));
               ("num_steps", VNum (inject_Z 25));
               ("cfg_strength", VNum (9 # 2));
               ("negative_prompt", VStr "");
               ("seed", VNum (inject_Z 0)) ]).

(** Arguments for [video_to_audio] with the two required fields. *)
Definition surf_clip : option value :=
  Some (VObj [ ("video_url", VStr "https://cdn.mmaudio.net/surf.mp4");
               ("prompt", VStr "waves") ]).

Definition unreachable : Request -> FetchOutcome :=
  fun _ => NetworkFailure "connect ECONNREFUSED 127.0.0.1:443".

End Sample.

(** A second platform, whose [JSON.parse] also reads the body
    [{"credits":0}] of an account without credits. *)
Module Account.

Definition no_credits_body : string :=
  "{" ++ Sample.quoted "credits" ++ ":0}".

Definition parse_text (s : string) : value + string :=
  if String.eqb s no_credits_body
  then inl (VObj [("credits", VNum (inject_Z 0))])
  else Sample.parse_text s.

Definition platform : Platform := {|
  URL_parses := Sample.url_parses;
  JSON_parse := parse_text;
  float_to_string := Sample.float_text;
  ZodError_message := Sample.zod_message
|}.

End Account.

(* ================================================================== *)
(** * Vocabulary of the statements *)
(* ================================================================== *)

Section Vocabulary.

Context {P : Platform}.

(** The issues and the output of an object schema, key by key. *)
Fixpoint shape_issues (shape : list (string * ZodType)) (p : list string)
  (fields : list (string * value)) : list ZodIssue :=
  match shape with
  | [] => []
  | (k, t) :: rest =>
      (fst (parse_node t (p ++ [k])%list (JS.lookup k fields))
       ++ shape_issues rest p fields)%list
  end.

Fixpoint shape_output (shape : list (string * ZodType)) (p : list string)
  (fields : list (string * value)) : list (string * value) :=
  match shape with
  | [] => []
  | (k, t) :: rest =>
      match snd (parse_node t (p ++ [k])%list (JS.lookup k fields)) with
      | Some v => (k, v) :: shape_output rest p fields
      | None => shape_output rest p fields
      end
  end.

(** The keys an object schema declares. *)
Definition declared_keys (schema : ZodType) : list string :=
  match schema with
  | ZodObject shape => map fst shape
  | _ => []
  end.

(** The timeout [loadConfig] reads from the environment: the argument of
    its [parseInt], [None] for NaN. *)
Definition timeout_setting (env : list (string * string)) : option Z :=
  JS.parseInt
    (interpolate
       (JS.or_else (process_env env "MMAUDIO_TIMEOUT")
          (JS.or_else (process_env env "timeout") (Some (VStr "60000"))))).

(** The request a generation handler builds from the configuration and
    the validated input. *)
Definition generation_request (endpoint : string) (cfg input : option value)
  : Request :=
  {| url := interpolate (JS.get_prop_opt cfg "baseUrl") ++ endpoint;
     method := "POST";
     headers :=
       [ ("Content-Type", "application/json");
         ("Authorization",
           "Bearer " ++ interpolate (JS.get_prop_opt cfg "apiKey"));
         ("User-Agent", "MMAudio-DXT/1.0.0") ];
     body := input;
     timeout := JS.get_prop_opt cfg "timeout" |}.

(** The two generation tools, with the handler, the schemas, the
    endpoint and the 403 message of each. *)
Inductive GenerationTool : Type :=
| VideoToAudio
| TextToAudio.

Definition handler_of (tool : GenerationTool)
  (env : list (string * string)) (net : Request -> FetchOutcome)
  : option value -> M ToolResult :=
  match tool with
  | VideoToAudio => handleVideoToAudio env net
  | TextToAudio => handleTextToAudio env net
  end.

Definition input_schema (tool : GenerationTool) : ZodType :=
  match tool with
  | VideoToAudio => VideoToAudioInputSchema
  | TextToAudio => TextToAudioInputSchema
  end.

Definition response_schema (tool : GenerationTool) : ZodType :=
  match tool with
  | VideoToAudio => VideoToAudioResponseSchema
  | TextToAudio => TextToAudioResponseSchema
  end.

Definition endpoint (tool : GenerationTool) : string :=
  match tool with
  | VideoToAudio => "/api/video-to-audio"
  | TextToAudio => "/api/text-to-audio"
  end.

Definition credits_message (tool : GenerationTool) : string :=
  match tool with
  | VideoToAudio => "Insufficient credits for video-to-audio generation."
  | TextToAudio => "Insufficient credits for text-to-audio generation."
  end.

(** How a generation handler ends on a response that is not 2xx. *)
Definition upstream_failure_mapping (tool : GenerationTool) (r : Response)
  (failure : result ToolResult) : Prop :=
  let http := "HTTP " ++ JS.Z_to_string (status r) in
  (status r = 401 ->
   failure = Thrown (McpError InvalidRequest
                       "Invalid API key. Please check your MMAudio API key."))
  /\ (status r = 403 ->
      failure = Thrown (McpError InvalidRequest (credits_message tool)))
  /\ (status r = 429 ->
      failure = Thrown (McpError InvalidRequest
                          "Rate limit exceeded. Please try again later."))
  /\ (status r <> 401 -> status r <> 403 -> status r <> 429 ->
      exists m,
        failure = Thrown (JsError "Error" m)
        /\ match JSON_parse (text r) with
           | inl (VObj fields) =>
               m = if JS.truthy (JS.lookup "error" fields)
                   then interpolate (JS.lookup "error" fields)
                   else http
           | inl VNull | inr _ =>
               m = if String.eqb (text r) "" then http else text r
           | inl _ => m = http
           end).

(** The request [handleValidateApiKey] builds for a key. *)
Definition credits_request (cfg apiKey : option value) : Request :=
  {| url :=
       interpolate
         (JS.or_else (JS.get_prop_opt cfg "baseUrl")
            (Some (VStr "https://mmaudio.net")))
       ++ "/api/credits";
     method := "GET";
     headers :=
       [ ("Authorization", "Bearer " ++ interpolate apiKey);
         ("User-Agent", "MMAudio-DXT/1.0.0") ];
     body := None;
     timeout := Some (VNum (inject_Z 10000)) |}.

(** The two envelopes [handleValidateApiKey] returns for a key that could
    not be validated. *)
Definition authentication_failed : ToolResult :=
  TextContent (VObj
    [ ("success", VBool false);
      ("valid", VBool false);
      ("message", VStr "Invalid API key");
      ("error", VStr "Authentication failed") ]).

Definition validation_failed (reason : string) : ToolResult :=
  TextContent (VObj
    [ ("success", VBool false);
      ("valid", VBool false);
      ("message", VStr "Failed to validate API key");
      ("error", VStr reason) ]).

(** [haystack.includes(needle)] *)
Fixpoint includes (needle haystack : string) : bool :=
  if String.prefix needle haystack then true
  else match haystack with
       | EmptyString => false
       | String _ rest => includes needle rest
       end.

(** ** Vocabulary of the further properties *)

Definition tool_name (tool : GenerationTool) : string :=
  match tool with
  | VideoToAudio => "video_to_audio"
  | TextToAudio => "text_to_audio"
  end.

(** The key of the descriptor in a 2xx body, and the message of the
    success envelope. *)
Definition descriptor_key (tool : GenerationTool) : string :=
  match tool with
  | VideoToAudio => "video"
  | TextToAudio => "audio"
  end.

Definition success_message (tool : GenerationTool) : string :=
  match tool with
  | VideoToAudio => "Audio generated successfully from video"
  | TextToAudio => "Audio generated successfully from text"
  end.

Definition string_items (items : list value) : list string :=
  flat_map (fun x => match x with VStr s => [s] | _ => [] end) items.

(** The tools of [listTools], and the names among them. *)
Definition listed_tools : list value :=
  match JS.get_prop listTools "tools" with
  | Some (VArr tools) => tools
  | _ => []
  end.

Definition listed_names : list string :=
  flat_map
    (fun t => match JS.get_prop t "name" with
              | Some (VStr n) => [n]
              | _ => []
              end)
    listed_tools.

Fixpoint find_tool (name : string) (tools : list value) : option value :=
  match tools with
  | [] => None
  | t :: rest =>
      match JS.get_prop t "name" with
      | Some (VStr n) => if String.eqb n name then Some t else find_tool name rest
      | _ => find_tool name rest
      end
  end.

(** The [inputSchema] a tool advertises, an attribute of one of its
    properties, and its [required] list. *)
Definition advertised_schema (name : string) : option value :=
  JS.get_prop_opt (find_tool name listed_tools) "inputSchema".

Definition advertised_properties (tool : GenerationTool)
  : list (string * value) :=
  match JS.get_prop_opt (advertised_schema (tool_name tool)) "properties" with
  | Some (VObj properties) => properties
  | _ => []
  end.

Definition advertised (tool : GenerationTool) (k attr : string)
  : option value :=
  JS.get_prop_opt (JS.lookup k (advertised_properties tool)) attr.

Definition advertised_required (tool : GenerationTool) : list string :=
  match JS.get_prop_opt (advertised_schema (tool_name tool)) "required" with
  | Some (VArr ks) => string_items ks
  | _ => []
  end.

(** The shape of an object schema, the type it gives a key, and the
    default of a type. *)
Definition declared_shape (schema : ZodType) : list (string * ZodType) :=
  match schema with
  | ZodObject shape => shape
  | _ => []
  end.

Fixpoint schema_field (shape : list (string * ZodType)) (k : string)
  : option ZodType :=
  match shape with
  | [] => None
  | (k', t) :: rest => if String.eqb k k' then Some t else schema_field rest k
  end.

(** The output of a type for a missing value, when it accepts one. *)
Fixpoint default_of (t : ZodType) : option value :=
  match t with
  | ZodDefault _ d => Some d
  | ZodNullable inner => default_of inner
  | _ => None
  end.

(** Types without an object inside: those of the input properties. *)
Fixpoint flat (t : ZodType) : bool :=
  match t with
  | ZodObject _ => false
  | ZodOptional inner | ZodNullable inner | ZodDefault inner _ => flat inner
  | _ => true
  end.

(** What a tool puts under a key of the request body, given the
    arguments: the value supplied, else the default of the key, and
    nothing for a key the schema does not declare. *)
Definition forwarded (tool : GenerationTool) (fields : list (string * value))
  (k : string) : option value :=
  match schema_field (declared_shape (input_schema tool)) k with
  | None => None
  | Some t =>
      match JS.lookup k fields with
      | Some v => Some v
      | None => default_of t
      end
  end.

(** What [loadConfig] reads from the environment beside the timeout, the
    object it hands to [ConfigSchema], and whether that object passes. *)
Definition key_setting (env : list (string * string)) : option value :=
  JS.or_else (process_env env "MMAUDIO_API_KEY") (process_env env "apiKey").

Definition base_url_setting (env : list (string * string)) : option value :=
  JS.or_else (process_env env "MMAUDIO_BASE_URL")
    (JS.or_else (process_env env "baseUrl")
       (Some (VStr "https://mmaudio.net"))).

Definition resolvable (env : list (string * string)) : bool :=
  JS.truthy (key_setting env)
  && match base_url_setting env with
     | Some (VStr b) => URL_parses b
     | _ => false
     end
  && match timeout_setting env with
     | Some t => (5000 <=? t) && (t <=? 300000)
     | None => false
     end.

Definition resolved (env : list (string * string)) : value :=
  VObj (object
    [ ("apiKey", key_setting env);
      ("baseUrl", base_url_setting env);
      ("timeout", Some (JS.number_of_parse (timeout_setting env))) ]).

(** What a generation handler may throw: an [McpError] with code
    [InvalidRequest] or [InvalidParams], or an error that is not an
    [McpError]; never a [ZodError]. *)
Definition generation_error (e : exn) : Prop :=
  match e with
  | McpError InvalidRequest _ | McpError InvalidParams _ | JsError _ _ => True
  | _ => False
  end.

(** The success envelope of [validate_api_key]. *)
Definition key_is_valid (credits : option value) : ToolResult :=
  TextContent (VObj (object
    [ ("success", Some (VBool true));
      ("valid", Some (VBool true));
      ("message", Some (VStr "API key is valid"));
      ("credits", credits);
      ("account_status", Some (VStr "Active")) ])).

(** The success envelope of a generation tool. *)
Definition generated (tool : GenerationTool)
  (audio_url content_type file_name file_size duration prompt : value)
  : ToolResult :=
  TextContent (VObj
    [ ("success", VBool true);
      ("message", VStr (success_message tool));
      ("result", VObj
         [ ("audio_url", audio_url);
           ("content_type", content_type);
           ("file_name", file_name);
           ("file_size", file_size);
           ("duration", duration);
           ("prompt", prompt) ]) ]).

End Vocabulary.

(* ================================================================== *)
(** * Properties *)
(* ================================================================== *)

(** Case analysis on a scrutinee that contains no other [match]. *)
Ltac destruct_innermost :=
  match goal with
  | |- context [match ?X with _ => _ end] =>
      lazymatch X with
      | context [match _ with _ => _ end] => fail
      | _ => destruct X eqn:?
      end
  end.

Example parseInt_plain : JS.parseInt "60000" = Some 60000.
Proof. reflexivity. Qed.

Example parseInt_prefix : JS.parseInt "  -12px" = Some (-12).
Proof. reflexivity. Qed.

Example parseInt_hex : JS.parseInt "0x1F" = Some 31.
Proof. reflexivity. Qed.

Example parseInt_nan : JS.parseInt "soon" = None.
Proof. reflexivity. Qed.

Section SchemaFacts.

Context {P : Platform}.

Lemma parse_object (shape : list (string * ZodType)) (p : list string)
  (fields : list (string * value)) :
  parse_node (ZodObject shape) p (Some (VObj fields))
  = (shape_issues shape p fields, Some (VObj (shape_output shape p fields))).
Proof.
  cbn [parse_node].
  match goal with
  | |- (let '(_, _) := ?F shape in _) = _ =>
      assert (H : forall sh,
                 F sh = (shape_issues sh p fields, shape_output sh p fields))
  end.
  { induction sh as [| [k t] rest IH]; [reflexivity |].
    cbn [shape_issues shape_output]. rewrite IH.
    destruct (parse_node t (p ++ [k])%list (JS.lookup k fields)) as [issues_k out_k].
    reflexivity. }
  rewrite H. reflexivity.
Qed.

Lemma safeParse_object (shape : list (string * ZodType))
  (fields : list (string * value)) :
  safeParse (ZodObject shape) (Some (VObj fields))
  = match shape_issues shape [] fields with
    | [] => inl (Some (VObj (shape_output shape [] fields)))
    | issues => inr issues
    end.
Proof.
  unfold safeParse. rewrite parse_object.
  destruct (shape_issues shape [] fields); reflexivity.
Qed.

(** A schema of the server that is not given an object raises one issue. *)
Lemma safeParse_not_object (shape : list (string * ZodType))
  (data : option value) :
  (forall fields, data <> Some (VObj fields)) ->
  safeParse (ZodObject shape) data = inr [invalid_type [] "object" data].
Proof.
  intros H. unfold safeParse.
  destruct data as [[| | | | | |fields]|]; try reflexivity.
  exfalso. apply (H fields). reflexivity.
Qed.

Lemma shape_output_keys (shape : list (string * ZodType)) (p : list string)
  (fields : list (string * value)) :
  incl (JS.keys (shape_output shape p fields)) (map fst shape).
Proof.
  induction shape as [| [k t] rest IH]; cbn [shape_output map fst].
  - apply incl_refl.
  - destruct (snd (parse_node t (p ++ [k])%list (JS.lookup k fields))).
    + cbn. apply incl_cons; [left; reflexivity |].
      apply incl_tl. exact IH.
    + apply incl_tl. exact IH.
Qed.

Lemma lookup_set_field_same (k : string) (v : value)
  (fields : list (string * value)) :
  JS.lookup k (JS.set_field k v fields) = Some v.
Proof.
  induction fields as [| [k' v'] rest IH]; cbn.
  - rewrite String.eqb_refl. reflexivity.
  - destruct (String.eqb k k') eqn:E; cbn.
    + rewrite String.eqb_refl. reflexivity.
    + rewrite E. exact IH.
Qed.

Lemma lookup_set_field_other (k k0 : string) (v : value)
  (fields : list (string * value)) :
  String.eqb k0 k = false ->
  JS.lookup k0 (JS.set_field k v fields) = JS.lookup k0 fields.
Proof.
  intros Hne.
  induction fields as [| [k' v'] rest IH]; cbn.
  - rewrite Hne. reflexivity.
  - destruct (String.eqb k k') eqn:E; cbn.
    + apply String.eqb_eq in E. subst k'. rewrite Hne. reflexivity.
    + rewrite IH. reflexivity.
Qed.

End SchemaFacts.

Section HandlerFacts.

Context {P : Platform}.
Variable env : list (string * string).
Variable net : Request -> FetchOutcome.

Lemma member_truthy (x : option value) (k : string) (w : World) :
  JS.truthy x = true ->
  member x k w = (Returned (JS.get_prop_opt x k), w).
Proof.
  destruct x as [[| | | | | |]|]; cbn; intros H;
    try discriminate; reflexivity.
Qed.

Lemma ensureConfigured_ready (w : World) :
  JS.truthy (config w) = true ->
  ensureConfigured env w = (Returned tt, w).
Proof.
  intros H. unfold ensureConfigured, bind, this_config.
  rewrite H. reflexivity.
Qed.

Lemma loadConfig_returns (w w' : World) (u : unit) :
  loadConfig env w = (Returned u, w') ->
  JS.truthy (config w') = true /\ calls w' = calls w.
Proof.
  unfold loadConfig, try_catch, bind, zod_parse, ConfigSchema.
  rewrite safeParse_object.
  destruct (shape_issues _ _ _) as [| i issues].
  - cbv beta iota delta [ret set_this_config].
    rewrite member_truthy by reflexivity.
    destruct (negb _); cbv beta iota delta [ret throw].
    + discriminate.
    + intros H. injection H as _ <-. split; reflexivity.
  - cbv beta iota delta [throw]. discriminate.
Qed.

Lemma ensureConfigured_returns (w w' : World) (u : unit) :
  ensureConfigured env w = (Returned u, w') ->
  JS.truthy (config w') = true /\ calls w' = calls w.
Proof.
  unfold ensureConfigured, bind, this_config.
  destruct (JS.truthy (config w)) eqn:E; cbn [negb].
  - unfold ret. intros H. injection H as _ <-. split; [exact E | reflexivity].
  - apply loadConfig_returns.
Qed.

(** Once the configuration is there, the handlers start from it. *)
Lemma handleVideoToAudio_configured (args : option value) (w w' : World)
  (u : unit) :
  ensureConfigured env w = (Returned u, w') ->
  handleVideoToAudio env net args w = handleVideoToAudio env net args w'.
Proof.
  intros H. destruct (ensureConfigured_returns _ _ _ H) as [Ht _].
  unfold handleVideoToAudio. set (rest := try_catch _ _). unfold bind.
  rewrite H. rewrite (ensureConfigured_ready _ Ht). reflexivity.
Qed.

Lemma handleTextToAudio_configured (args : option value) (w w' : World)
  (u : unit) :
  ensureConfigured env w = (Returned u, w') ->
  handleTextToAudio env net args w = handleTextToAudio env net args w'.
Proof.
  intros H. destruct (ensureConfigured_returns _ _ _ H) as [Ht _].
  unfold handleTextToAudio. set (rest := try_catch _ _). unfold bind.
  rewrite H. rewrite (ensureConfigured_ready _ Ht). reflexivity.
Qed.

Lemma fetch_run (req : Request) (w : World) :
  fetch net req w
  = (match net req with
     | Responded r => Returned r
     | NetworkFailure msg => Thrown (JsError "FetchError" msg)
     end,
     mkWorld (config w) (calls w ++ [req])).
Proof.
  unfold fetch. destruct (net req); reflexivity.
Qed.

(** Runs a generation handler, in a world with a configuration, up to
    the answer to its request. *)
Ltac run_to_fetch Hc Hp :=
  set (rest := try_catch _ _);
  unfold bind at 1;
  rewrite (ensureConfigured_ready _ Hc);
  subst rest;
  cbv beta iota delta [try_catch bind zod_parse this_config ret throw];
  rewrite Hp;
  cbv beta iota;
  rewrite !member_truthy by assumption;
  cbv beta iota;
  rewrite fetch_run.

Lemma generation_configured (tool : GenerationTool) (args : option value)
  (w w' : World) (u : unit) :
  ensureConfigured env w = (Returned u, w') ->
  handler_of tool env net args w = handler_of tool env net args w'.
Proof.
  destruct tool; cbn [handler_of];
    [apply handleVideoToAudio_configured | apply handleTextToAudio_configured].
Qed.

Lemma generation_rejects (tool : GenerationTool) (args : option value)
  (w : World) (issues : list ZodIssue) :
  JS.truthy (config w) = true ->
  safeParse (input_schema tool) args = inr issues ->
  handler_of tool env net args w
  = (Thrown (McpError InvalidParams
               ("Invalid input parameters: " ++ format_issues issues)), w).
Proof.
  intros Hc Hp.
  destruct tool; cbn [handler_of input_schema] in *;
    [unfold handleVideoToAudio | unfold handleTextToAudio];
    set (rest := try_catch _ _);
    unfold bind; rewrite (ensureConfigured_ready _ Hc); subst rest;
    unfold try_catch, bind, zod_parse; rewrite Hp; reflexivity.
Qed.

Lemma generation_sends (tool : GenerationTool) (args input : option value)
  (w : World) :
  JS.truthy (config w) = true ->
  safeParse (input_schema tool) args = inl input ->
  snd (handler_of tool env net args w)
  = mkWorld (config w)
      (calls w ++ [generation_request (endpoint tool) (config w) input]).
Proof.
  intros Hc Hp.
  destruct tool; cbn [handler_of input_schema endpoint] in *;
    [unfold handleVideoToAudio | unfold handleTextToAudio];
    run_to_fetch Hc Hp;
    match goal with
    | |- context [net ?req] => destruct (net req) as [r | msg]
    end;
    try reflexivity;
    cbv beta iota delta [json_parse member ret throw zod_parse];
    repeat (destruct_innermost; cbv beta iota; try reflexivity).
Qed.

Lemma generation_upstream_failure (tool : GenerationTool)
  (args input : option value) (w : World) (r : Response) :
  JS.truthy (config w) = true ->
  safeParse (input_schema tool) args = inl input ->
  net (generation_request (endpoint tool) (config w) input) = Responded r ->
  ok r = false ->
  upstream_failure_mapping tool r (fst (handler_of tool env net args w)).
Proof.
  intros Hc Hp Hnet Hok.
  destruct tool; cbn [handler_of input_schema endpoint credits_message] in *;
    [unfold handleVideoToAudio | unfold handleTextToAudio];
    run_to_fetch Hc Hp;
    match goal with
    | |- context [net ?req] =>
        change req with
          (generation_request "/api/video-to-audio" (config w) input)
        || change req with
          (generation_request "/api/text-to-audio" (config w) input)
    end;
    rewrite Hnet; cbv beta iota; rewrite Hok; cbn [negb];
    cbv beta iota delta [json_parse member ret throw];
    unfold upstream_failure_mapping; cbn [credits_message];
    (destruct (JSON_parse (text r)) as [[| b | q | | s | items | fields] | e];
     cbv beta iota; cbn [JS.get_prop];
     unfold JS.or_else; cbn [JS.truthy];
     repeat split; intros;
     repeat match goal with
            | H : status r = _ |- _ => rewrite H; cbn [Z.eqb Pos.eqb]
            | H : status r <> ?n |- _ =>
                apply Z.eqb_neq in H; rewrite H
            end;
     try reflexivity;
     try (eexists; split; [reflexivity |]);
     try (destruct (String.eqb (text r) ""); reflexivity);
     try (destruct (JS.truthy (JS.lookup "error" fields)); reflexivity)).
Qed.

(** A 2xx body that fails the response schema ends in the same catch
    clause as an input that fails the input schema. *)
Lemma generation_response_rejected (tool : GenerationTool)
  (args input : option value) (w : World) (r : Response) (v : value)
  (issues : list ZodIssue) :
  JS.truthy (config w) = true ->
  safeParse (input_schema tool) args = inl input ->
  net (generation_request (endpoint tool) (config w) input) = Responded r ->
  ok r = true ->
  JSON_parse (text r) = inl v ->
  safeParse (response_schema tool) (Some v) = inr issues ->
  fst (handler_of tool env net args w)
  = Thrown (McpError InvalidParams
              ("Invalid input parameters: " ++ format_issues issues)).
Proof.
  intros Hc Hp Hnet Hok Hjson Hresp.
  destruct tool; cbn [handler_of input_schema endpoint response_schema] in *;
    [unfold handleVideoToAudio | unfold handleTextToAudio];
    run_to_fetch Hc Hp;
    match goal with
    | |- context [net ?req] =>
        change req with
          (generation_request "/api/video-to-audio" (config w) input)
        || change req with
          (generation_request "/api/text-to-audio" (config w) input)
    end;
    rewrite Hnet; cbv beta iota; rewrite Hok; cbn [negb];
    cbv beta iota delta [json_parse ret throw zod_parse];
    rewrite Hjson; cbv beta iota; rewrite Hresp; reflexivity.
Qed.

Lemma member_quiet (x : option value) (k : string) (w : World) :
  snd (member x k w) = w.
Proof.
  destruct x as [[| | | | | |]|]; reflexivity.
Qed.

Lemma validate_without_key (args override : option value) (w : World) :
  member args "api_key" w = (Returned override, w) ->
  JS.truthy (JS.or_else override (JS.get_prop_opt (config w) "apiKey"))
  = false ->
  handleValidateApiKey net args w
  = (Thrown (McpError InvalidRequest "No API key provided"), w).
Proof.
  intros Hm Hk. unfold handleValidateApiKey.
  unfold bind at 1. rewrite Hm.
  cbv beta iota delta [bind this_config]. rewrite Hk. reflexivity.
Qed.

Lemma validate_with_key (args override : option value) (w : World) :
  member args "api_key" w = (Returned override, w) ->
  let apiKey :=
    JS.or_else override (JS.get_prop_opt (config w) "apiKey") in
  let req := credits_request (config w) apiKey in
  JS.truthy apiKey = true ->
  exists t,
    handleValidateApiKey net args w
    = (Returned t, mkWorld (config w) (calls w ++ [req]))
    /\ (forall r, net req = Responded r -> status r = 401 ->
        t = authentication_failed)
    /\ (forall msg, net req = NetworkFailure msg ->
        t = validation_failed msg).
Proof.
  intros Hm apiKey req Hk. unfold handleValidateApiKey.
  unfold bind at 1. rewrite Hm.
  cbv beta iota delta [bind this_config try_catch].
  fold apiKey. rewrite Hk. cbn [negb]. cbv beta iota.
  rewrite fetch_run. fold (credits_request (config w) apiKey). fold req.
  destruct (net req) as [r | msg]; cbv beta iota.
  - destruct (status r =? 401) eqn:E401; cbv beta iota delta [ret].
    + eexists. split; [reflexivity |]. split; [reflexivity |].
      intros ? H. discriminate H.
    + destruct (ok r); cbn [negb]; cbv beta iota delta [throw].
      * cbv beta iota delta [json_parse bind ret throw].
        destruct (JSON_parse (text r)) as [v | e]; cbv beta iota.
        -- rewrite (surjective_pairing (member (Some v) "credits" _)).
           rewrite member_quiet.
           destruct (fst (member (Some v) "credits" _)); cbv beta iota;
             (eexists; split; [reflexivity |]; split;
              [intros r' H H'; injection H as <-;
               apply Z.eqb_neq in E401; contradiction
              | intros ? H; discriminate H]).
        -- eexists. split; [reflexivity |]. split;
             [intros r' H H'; injection H as <-;
              apply Z.eqb_neq in E401; contradiction
             | intros ? H; discriminate H].
      * eexists. split; [reflexivity |]. split;
          [intros r' H H'; injection H as <-;
           apply Z.eqb_neq in E401; contradiction
          | intros ? H; discriminate H].
  - eexists. split; [reflexivity |]. split.
    + intros ? H. discriminate H.
    + intros ? H. injection H as <-. reflexivity.
Qed.

Lemma Qle_bool_inject_Z (a b : Z) :
  Qle_bool (inject_Z a) (inject_Z b) = (a <=? b).
Proof.
  unfold Qle_bool, inject_Z. cbn [Qnum Qden].
  rewrite !Z.mul_1_r. reflexivity.
Qed.



Lemma callTool_validate (args : option value) (w : World) :
  callTool env net "validate_api_key" args w
  = match handleValidateApiKey net args w with
    | (Returned t, w') => (Returned t, w')
    | (Thrown (McpError code msg), w') => (Thrown (McpError code msg), w')
    | (Thrown e, w') =>
        (Thrown (McpError InternalError
                   ("Tool execution failed: " ++ error_message e)), w')
    end.
Proof.
  unfold callTool, try_catch.
  change (String.eqb "validate_api_key" "video_to_audio") with false.
  change (String.eqb "validate_api_key" "text_to_audio") with false.
  change (String.eqb "validate_api_key" "validate_api_key") with true.
  cbv beta iota.
  destruct (handleValidateApiKey net args w) as [[t | [issues | code msg | name msg]] w'];
    reflexivity.
Qed.

Lemma validate_member_throws (args : option value) (w : World) (e : exn)
  (w' : World) :
  member args "api_key" w = (Thrown e, w') ->
  handleValidateApiKey net args w = (Thrown e, w').
Proof.
  intros H. unfold handleValidateApiKey. unfold bind at 1.
  rewrite H. reflexivity.
Qed.

Lemma not_own_extension {A : Type} (l : list A) (x : A) :
  l <> (l ++ [x])%list.
Proof.
  intros H. apply (f_equal (@List.length A)) in H.
  rewrite length_app in H. cbn in H. lia.
Qed.

Lemma validate_request_outcome (args : option value) (w : World)
  (req : Request) :
  calls (snd (handleValidateApiKey net args w)) = (calls w ++ [req])%list ->
  exists t,
    handleValidateApiKey net args w
    = (Returned t, mkWorld (config w) (calls w ++ [req]))
    /\ (forall r, net req = Responded r -> status r = 401 ->
        t = authentication_failed)
    /\ (forall msg, net req = NetworkFailure msg ->
        t = validation_failed msg).
Proof.
  intros Hcalls.
  destruct (member args "api_key" w) as [[override | e] w0] eqn:Hm.
  - assert (w0 = w) as -> by (rewrite <- (member_quiet args "api_key" w), Hm;
                              reflexivity).
    destruct (JS.truthy
                (JS.or_else override (JS.get_prop_opt (config w) "apiKey")))
      eqn:Hk.
    + destruct (validate_with_key _ _ _ Hm Hk) as (t & Hrun & H401 & Hfail).
      rewrite Hrun in Hcalls. cbn [snd calls] in Hcalls.
      apply app_inv_head in Hcalls. injection Hcalls as Hreq.
      rewrite Hreq in Hrun, H401, Hfail.
      exists t. repeat split; assumption.
    + rewrite (validate_without_key _ _ _ Hm Hk) in Hcalls.
      cbn [snd] in Hcalls. exfalso. exact (not_own_extension _ _ Hcalls).
  - assert (w0 = w) as -> by (rewrite <- (member_quiet args "api_key" w), Hm;
                              reflexivity).
    rewrite (validate_member_throws _ _ _ _ Hm) in Hcalls.
    cbn [snd] in Hcalls. exfalso. exact (not_own_extension _ _ Hcalls).
Qed.

Lemma safeParse_object_inv (shape : list (string * ZodType))
  (data input : option value) :
  safeParse (ZodObject shape) data = inl input ->
  exists fields,
    data = Some (VObj fields)
    /\ shape_issues shape [] fields = []
    /\ input = Some (VObj (shape_output shape [] fields)).
Proof.
  intros H.
  destruct data as [[| | | | | | fields]|]; try discriminate H.
  rewrite safeParse_object in H.
  destruct (shape_issues shape [] fields) eqn:E; [| discriminate H].
  injection H as <-. exists fields. repeat split. exact E.
Qed.

(** A server that [start] has connected holds its configuration: for
    every call it serves, [ensureConfigured] has nothing to do. *)
Lemma start_configures (w w' : World) :
  start env w = inl w' ->
  ensureConfigured env w' = (Returned tt, w').
Proof.
  unfold start. intros H.
  destruct (loadConfig env w) as [[[] | e] w0] eqn:Hload; [| discriminate H].
  injection H as <-.
  apply ensureConfigured_ready.
  apply (loadConfig_returns _ _ _ Hload).
Qed.

End HandlerFacts.

Section ValidationFacts.

Context {P : Platform}.

Lemma accepts_object (shape : list (string * ZodType))
  (fields : list (string * value)) :
  accepts (ZodObject shape) (Some (VObj fields))
  = match shape_issues shape [] fields with
    | [] => true
    | _ => false
    end.
Proof.
  unfold accepts. rewrite safeParse_object.
  destruct (shape_issues shape [] fields); reflexivity.
Qed.

Lemma shape_issues_in (shape : list (string * ZodType)) (p : list string)
  (fields : list (string * value)) (k : string) (t : ZodType) (i : ZodIssue) :
  In (k, t) shape ->
  In i (fst (parse_node t (p ++ [k])%list (JS.lookup k fields))) ->
  In i (shape_issues shape p fields).
Proof.
  intros Hin Hi. induction shape as [| [k' t'] rest IH]; [destruct Hin |].
  cbn [shape_issues]. apply in_or_app. destruct Hin as [Heq | Hin].
  - injection Heq as -> ->. left. exact Hi.
  - right. apply IH. exact Hin.
Qed.

Lemma rejected_when_issue (shape : list (string * ZodType))
  (fields : list (string * value)) (i : ZodIssue) :
  In i (shape_issues shape [] fields) ->
  accepts (ZodObject shape) (Some (VObj fields)) = false.
Proof.
  intros Hin. rewrite accepts_object.
  destruct (shape_issues shape [] fields); [destruct Hin | reflexivity].
Qed.

(** A key the schema does not declare has no influence on the parse. *)
Lemma undeclared_key_ignored (shape : list (string * ZodType))
  (p : list string) (fields : list (string * value)) (k : string) (v : value) :
  ~ In k (map fst shape) ->
  shape_issues shape p (JS.set_field k v fields) = shape_issues shape p fields
  /\ shape_output shape p (JS.set_field k v fields)
     = shape_output shape p fields.
Proof.
  induction shape as [| [k' t'] rest IH]; intros Hk; [split; reflexivity |].
  cbn [map fst] in Hk.
  assert (Hne : String.eqb k' k = false).
  { apply String.eqb_neq. intros ->. apply Hk. left. reflexivity. }
  destruct IH as [IHi IHo].
  { intros Hin. apply Hk. right. exact Hin. }
  cbn [shape_issues shape_output].
  rewrite (lookup_set_field_other _ _ _ _ Hne), IHi, IHo.
  split; reflexivity.
Qed.

(** Duration: with every other field left as it is, the verdict on an
    accepted input follows the new duration alone. *)
Lemma duration_replaced (tool : GenerationTool)
  (fields : list (string * value)) (q : Q) :
  accepts (input_schema tool) (Some (VObj fields)) = true ->
  accepts (input_schema tool)
    (Some (VObj (JS.set_field "duration" (VNum q) fields)))
  = Qle_bool (inject_Z 1) q && Qle_bool q (inject_Z 30).
Proof.
  destruct tool; cbn [input_schema];
    unfold VideoToAudioInputSchema, TextToAudioInputSchema;
    rewrite !accepts_object; cbn [shape_issues];
    rewrite lookup_set_field_same;
    rewrite !lookup_set_field_other by reflexivity;
    intros H;
    match type of H with
    | match ?L with _ => _ end = true =>
        destruct L eqn:E; [clear H | discriminate H]
    end;
    repeat match goal with
           | H : (_ ++ _)%list = [] |- _ =>
               apply app_eq_nil in H; destruct H
           end;
    repeat match goal with
           | H : fst (parse_node _ _ (JS.lookup _ fields)) = [] |- _ =>
               rewrite H
           end;
    cbn [parse_node fst flat_map number_check app];
    destruct (Qle_bool (inject_Z 1) q), (Qle_bool q (inject_Z 30));
    reflexivity.
Qed.

Lemma duration_rejected (tool : GenerationTool)
  (fields : list (string * value)) (q : Q) :
  JS.lookup "duration" fields = Some (VNum q) ->
  Qle_bool (inject_Z 1) q && Qle_bool q (inject_Z 30) = false ->
  accepts (input_schema tool) (Some (VObj fields)) = false.
Proof.
  intros Hl Hq.
  assert (Hi : exists i,
             In i (fst (parse_node
                          (ZodDefault (ZodNumber [CheckMin 1; CheckMax 30])
                             (VNum (inject_Z 8)))
                          ([] ++ ["duration"])%list
                          (JS.lookup "duration" fields)))).
  { rewrite Hl. cbn [parse_node fst flat_map number_check].
    destruct (Qle_bool (inject_Z 1) q); cbn [andb] in Hq.
    - rewrite Hq. eexists. left. reflexivity.
    - eexists. left. reflexivity. }
  destruct Hi as [i Hi].
  destruct tool; cbn [input_schema];
    unfold VideoToAudioInputSchema, TextToAudioInputSchema;
    apply (rejected_when_issue _ _ i);
    refine (shape_issues_in _ _ _ "duration" _ _ _ Hi);
    cbn [In]; repeat (first [left; reflexivity | right]).
Qed.

End ValidationFacts.

(* ================================================================== *)
(** * The claims of the specification *)
(* ================================================================== *)

(** ** Validation before the request *)

(** C1.  In a server whose configuration is resolved, a call of
    [video_to_audio] or [text_to_audio] whose arguments fail the input
    schema ends in an [McpError] with code [InvalidParams] that lists the
    issues and sends no request; a call whose arguments pass sends
    exactly one request, whatever the upstream answers. *)
Theorem validation_gates_the_request {P : Platform} (tool : GenerationTool)
  (env : list (string * string)) (net : Request -> FetchOutcome)
  (args : option value) (w w' : World) :
  ensureConfigured env w = (Returned tt, w') ->
  match safeParse (input_schema tool) args with
  | inr issues =>
      handler_of tool env net args w
      = (Thrown (McpError InvalidParams
                   ("Invalid input parameters: " ++ format_issues issues)),
         w')
      /\ calls w' = calls w
  | inl input =>
      calls (snd (handler_of tool env net args w))
      = (calls w
         ++ [generation_request (endpoint tool) (config w') input])%list
  end.
Proof.
  intros Hcfg.
  destruct (ensureConfigured_returns _ _ _ _ Hcfg) as [Htruthy Hcalls].
  rewrite (generation_configured env net tool args _ _ _ Hcfg).
  destruct (safeParse (input_schema tool) args) as [input | issues] eqn:Hp.
  - rewrite (generation_sends env net tool _ _ _ Htruthy Hp).
    cbn [calls]. rewrite Hcalls. reflexivity.
  - split; [| exact Hcalls].
    apply generation_rejects; assumption.
Qed.

(** ** Upstream failures *)

(** C3, as amended.  On a response that is not 2xx, [video_to_audio] and
    [text_to_audio] throw an [McpError] with a fixed message for 401
    (invalid API key), 403 (insufficient credits) and 429 (rate limit);
    for any other status they throw a generic [Error] that carries one
    message only: the [error] property of the body when the body is a JSON
    object with a truthy one, the raw body text when the body is not JSON
    (or is [null]) and not empty, and "HTTP <status>" otherwise.  The
    status is carried in that last case only. *)
Theorem upstream_failure_is_mapped {P : Platform} (tool : GenerationTool)
  (env : list (string * string)) (net : Request -> FetchOutcome)
  (args input : option value) (w w' : World) (r : Response) :
  ensureConfigured env w = (Returned tt, w') ->
  safeParse (input_schema tool) args = inl input ->
  net (generation_request (endpoint tool) (config w') input) = Responded r ->
  ok r = false ->
  upstream_failure_mapping tool r (fst (handler_of tool env net args w)).
Proof.
  intros Hcfg Hp Hnet Hok.
  destruct (ensureConfigured_returns _ _ _ _ Hcfg) as [Htruthy _].
  rewrite (generation_configured env net tool args _ _ _ Hcfg).
  apply generation_upstream_failure with (input := input); assumption.
Qed.

(** ** Configuration *)



(** ** Defaults and bounds of the input schemas *)

(** C5.  The arguments [{prompt: "rain on leaves"}] pass the schema of
    [text_to_audio], and the body of the one request sent holds the
    prompt and the five defaults: duration 8, num_steps 25, cfg_strength
    4.5, negative_prompt "" and seed 0. *)
Theorem rain_on_leaves_gets_defaults {P : Platform}
  (env : list (string * string)) (net : Request -> FetchOutcome)
  (w w' : World) :
  ensureConfigured env w = (Returned tt, w') ->
  safeParse TextToAudioInputSchema Sample.rain_on_leaves
  = inl Sample.rain_on_leaves_body
  /\ exists req,
       calls (snd (handleTextToAudio env net Sample.rain_on_leaves w))
       = (calls w ++ [req])%list
       /\ body req = Sample.rain_on_leaves_body.
Proof.
  intros Hcfg.
  assert (Hp : safeParse TextToAudioInputSchema Sample.rain_on_leaves
               = inl Sample.rain_on_leaves_body) by reflexivity.
  split; [exact Hp |].
  destruct (ensureConfigured_returns _ _ _ _ Hcfg) as [Htruthy Hcalls].
  rewrite (generation_configured env net TextToAudio _ _ _ _ Hcfg
           : handleTextToAudio env net _ w = handleTextToAudio env net _ w').
  eexists. split.
  - rewrite (generation_sends env net TextToAudio _ _ _ Htruthy Hp
             : snd (handleTextToAudio env net _ w') = _).
    cbn [calls]. rewrite Hcalls. reflexivity.
  - reflexivity.
Qed.

(** C6.  For both tools the bounds on [duration] are inclusive: an input
    whose duration is 0 or 31 is rejected, and an accepted input stays
    accepted when its duration is set to 1 or to 30. *)
Theorem duration_bounds_are_inclusive {P : Platform} (tool : GenerationTool)
  (fields : list (string * value)) :
  (forall d, d = 0 \/ d = 31 ->
     JS.lookup "duration" fields = Some (VNum (inject_Z d)) ->
     accepts (input_schema tool) (Some (VObj fields)) = false)
  /\ (accepts (input_schema tool) (Some (VObj fields)) = true ->
      forall d, d = 1 \/ d = 30 ->
        accepts (input_schema tool)
          (Some (VObj (JS.set_field "duration" (VNum (inject_Z d)) fields)))
        = true).
Proof.
  split.
  - intros d Hd Hl. apply (duration_rejected tool fields _ Hl).
    destruct Hd as [-> | ->]; reflexivity.
  - intros Hacc d Hd. rewrite (duration_replaced tool fields _ Hacc).
    destruct Hd as [-> | ->]; reflexivity.
Qed.

(** ** validate_api_key *)

(** C7.  Whenever [validate_api_key] has sent its request, a 401 answer
    and a failure before any answer both make the tool call return an
    envelope with [valid: false] - with the error "Authentication failed"
    for the 401, with the message of the failure otherwise - and the
    dispatcher throws nothing. *)
Theorem key_check_failures_are_envelopes {P : Platform}
  (env : list (string * string)) (net : Request -> FetchOutcome)
  (args : option value) (w : World) (req : Request) :
  calls (snd (callTool env net "validate_api_key" args w))
  = (calls w ++ [req])%list ->
  (forall r, net req = Responded r -> status r = 401 ->
     fst (callTool env net "validate_api_key" args w)
     = Returned authentication_failed)
  /\ (forall msg, net req = NetworkFailure msg ->
      fst (callTool env net "validate_api_key" args w)
      = Returned (validation_failed msg)).
Proof.
  rewrite callTool_validate. intros Hcalls.
  assert (Hsent : calls (snd (handleValidateApiKey net args w))
                  = (calls w ++ [req])%list).
  { destruct (handleValidateApiKey net args w)
      as [[t | [issues | code msg | name msg]] w0]; exact Hcalls. }
  destruct (validate_request_outcome net args w req Hsent)
    as (t & Hrun & H401 & Hfail).
  rewrite Hrun. cbn [fst]. split.
  - intros r Hr Hs. rewrite (H401 r Hr Hs). reflexivity.
  - intros msg Hm. rewrite (Hfail msg Hm). reflexivity.
Qed.

(** C8.  The code at a call of [validate_api_key] whose [arguments] are
    omitted: reading [args.api_key] throws before the key is chosen, so
    whatever the configuration holds the call ends in [InternalError] -
    the configured key is not used, the refusal "No API key provided" is
    not given - and nothing is sent. *)
Theorem omitted_arguments_never_reach_the_key_check {P : Platform}
  (env : list (string * string)) (net : Request -> FetchOutcome)
  (w : World) :
  callTool env net "validate_api_key" None w
  = (Thrown (McpError InternalError
               ("Tool execution failed: "
                ++ "Cannot read properties of undefined (reading 'api_key')")),
     w).
Proof.
  rewrite callTool_validate.
  rewrite (validate_member_throws net None w
             (JsError "TypeError"
                "Cannot read properties of undefined (reading 'api_key')")
             w eq_refl).
  reflexivity.
Qed.

(** With an arguments object: with no override and no configured key the
    call is refused with an [McpError] "No API key provided" and no
    request is sent; a supplied override is the key of the request;
    without one the configured key is. *)
Theorem key_is_override_else_configured {P : Platform}
  (net : Request -> FetchOutcome) (fields : list (string * value))
  (w : World) :
  let override := JS.lookup "api_key" fields in
  let configured := JS.get_prop_opt (config w) "apiKey" in
  let run := handleValidateApiKey net (Some (VObj fields)) w in
  (JS.truthy override = false -> JS.truthy configured = false ->
     run = (Thrown (McpError InvalidRequest "No API key provided"), w))
  /\ (JS.truthy override = true ->
      calls (snd run)
      = (calls w ++ [credits_request (config w) override])%list)
  /\ (JS.truthy override = false -> JS.truthy configured = true ->
      calls (snd run)
      = (calls w ++ [credits_request (config w) configured])%list).
Proof.
  intros override configured run.
  assert (Hm : member (Some (VObj fields)) "api_key" w
               = (Returned override, w)) by reflexivity.
  repeat split.
  - intros Ho Hc. apply (validate_without_key net _ _ _ Hm).
    unfold JS.or_else. fold override. rewrite Ho. exact Hc.
  - intros Ho.
    assert (Hk : JS.or_else override configured = override)
      by (unfold JS.or_else; rewrite Ho; reflexivity).
    destruct (validate_with_key net _ _ _ Hm) as (t & Hrun & _).
    { fold configured. rewrite Hk. exact Ho. }
    fold configured in Hrun. rewrite Hk in Hrun.
    subst run. rewrite Hrun. reflexivity.
  - intros Ho Hc.
    assert (Hk : JS.or_else override configured = configured)
      by (unfold JS.or_else; rewrite Ho; reflexivity).
    destruct (validate_with_key net _ _ _ Hm) as (t & Hrun & _).
    { fold configured. rewrite Hk. exact Hc. }
    fold configured in Hrun. rewrite Hk in Hrun.
    subst run. rewrite Hrun. reflexivity.
Qed.

(** C9.  A call of [validate_api_key] that supplies a key never loads the
    configuration: whatever the environment holds, the tool call returns
    an envelope, [this.config] is what it was, and the one request carries
    the supplied key; with no configuration it goes to
    https://mmaudio.net/api/credits. *)
Theorem explicit_key_needs_no_configuration {P : Platform}
  (env : list (string * string)) (net : Request -> FetchOutcome)
  (fields : list (string * value)) (w : World) :
  JS.truthy (JS.lookup "api_key" fields) = true ->
  let key := JS.lookup "api_key" fields in
  (exists t,
     callTool env net "validate_api_key" (Some (VObj fields)) w
     = (Returned t,
        mkWorld (config w) (calls w ++ [credits_request (config w) key])))
  /\ In ("Authorization", "Bearer " ++ interpolate key)
       (headers (credits_request (config w) key))
  /\ (config w = None ->
      url (credits_request (config w) key)
      = "https://mmaudio.net/api/credits").
Proof.
  intros Ho key.
  assert (Hm : member (Some (VObj fields)) "api_key" w
               = (Returned key, w)) by reflexivity.
  assert (Hk : JS.or_else key (JS.get_prop_opt (config w) "apiKey") = key)
    by (unfold JS.or_else; fold key in Ho; rewrite Ho; reflexivity).
  repeat split.
  - destruct (validate_with_key net _ _ _ Hm) as (t & Hrun & _).
    { rewrite Hk. exact Ho. }
    rewrite Hk in Hrun. exists t.
    rewrite callTool_validate, Hrun. reflexivity.
  - left. reflexivity.
  - intros ->. reflexivity.
Qed.

(** ** Unrecognised fields *)

(** C10.  Validation strips what the contract does not declare: every key
    of the body sent by [video_to_audio] or [text_to_audio] is a key of
    the tool's input schema, and adding or changing an undeclared key of
    the arguments changes neither the verdict nor the body. *)
Theorem undeclared_fields_are_stripped {P : Platform} (tool : GenerationTool)
  (env : list (string * string)) (net : Request -> FetchOutcome)
  (args input : option value) (w w' : World) :
  ensureConfigured env w = (Returned tt, w') ->
  safeParse (input_schema tool) args = inl input ->
  exists sent req,
    calls (snd (handler_of tool env net args w)) = (calls w ++ [req])%list
    /\ body req = Some (VObj sent)
    /\ incl (JS.keys sent) (declared_keys (input_schema tool))
    /\ forall given k v,
         args = Some (VObj given) ->
         ~ In k (declared_keys (input_schema tool)) ->
         safeParse (input_schema tool)
           (Some (VObj (JS.set_field k v given)))
         = inl (Some (VObj sent)).
Proof.
  intros Hcfg Hp.
  pose proof (Hsame := generation_configured env net tool args
                                    _ _ _ Hcfg).
  destruct (ensureConfigured_returns _ _ _ _ Hcfg) as [Htruthy Hcalls].
  assert (Hshape : exists shape, input_schema tool = ZodObject shape)
    by (destruct tool; eexists; reflexivity).
  destruct Hshape as [shape Hshape].
  rewrite Hshape in Hp.
  destruct (safeParse_object_inv _ _ _ Hp) as (given0 & Hargs & Hnil & Hin).
  rewrite <- Hshape in Hp.
  exists (shape_output shape [] given0).
  eexists. repeat split.
  - rewrite Hsame.
    rewrite (generation_sends env net tool _ _ _ Htruthy Hp).
    cbn [calls]. rewrite Hcalls. reflexivity.
  - cbn [body generation_request]. exact Hin.
  - rewrite Hshape. cbn [declared_keys]. apply shape_output_keys.
  - intros given k v Hgiven Hk.
    rewrite Hargs in Hgiven. injection Hgiven as <-.
    rewrite Hshape in Hk |- *. cbn [declared_keys] in Hk.
    rewrite safeParse_object.
    destruct (undeclared_key_ignored shape [] given0 k v Hk) as [-> ->].
    rewrite Hnil. reflexivity.
Qed.

(* ================================================================== *)
(** * Further properties *)
(* ================================================================== *)

Section ConfigurationFacts.

Context {P : Platform}.
Variable env : list (string * string).

Lemma process_env_string (k : string) :
  process_env env k = None \/ exists s, process_env env k = Some (VStr s).
Proof.
  unfold process_env. induction env as [| [k' v] rest IH]; cbn.
  - left. reflexivity.
  - destruct (String.eqb k k'); [right; eexists; reflexivity | exact IH].
Qed.

Lemma key_setting_string :
  key_setting env = None \/ exists s, key_setting env = Some (VStr s).
Proof.
  unfold key_setting, JS.or_else.
  destruct (JS.truthy (process_env env "MMAUDIO_API_KEY"));
    apply process_env_string.
Qed.

Lemma base_url_setting_string :
  exists b, base_url_setting env = Some (VStr b).
Proof.
  unfold base_url_setting, JS.or_else.
  destruct (JS.truthy (process_env env "MMAUDIO_BASE_URL")) eqn:E1.
  - destruct (process_env_string "MMAUDIO_BASE_URL") as [H | [s H]];
      rewrite H in *; [discriminate E1 | eexists; reflexivity].
  - destruct (JS.truthy (process_env env "baseUrl")) eqn:E2.
    + destruct (process_env_string "baseUrl") as [H | [s H]];
        rewrite H in *; [discriminate E2 | eexists; reflexivity].
    + eexists. reflexivity.
Qed.

Lemma nonempty_length (s : string) :
  Nat.ltb (String.length s) 1 = negb (JS.truthy (Some (VStr s))).
Proof.
  destruct s; reflexivity.
Qed.

(** The issues of the configuration object, and its output. *)
Lemma config_issues :
  match resolved env with
  | VObj fields =>
      (shape_issues (declared_shape ConfigSchema) [] fields = []
       <-> resolvable env = true)
      /\ (resolvable env = true ->
          shape_output (declared_shape ConfigSchema) [] fields = fields)
  | _ => False
  end.
Proof.
  unfold resolved, resolvable.
  destruct base_url_setting_string as [b Hb]. rewrite Hb.
  destruct key_setting_string as [Hk | [k Hk]]; rewrite Hk;
    destruct (timeout_setting env) as [t |];
    cbn [object declared_shape ConfigSchema shape_issues shape_output
         JS.lookup String.eqb Ascii.eqb Bool.eqb JS.number_of_parse
         parse_node fst snd flat_map string_check number_check app
         custom_or invalid_type JS.truthy andb];
    rewrite ?Qle_bool_inject_Z, ?nonempty_length; cbn [JS.truthy negb];
    try (destruct (negb (String.eqb k "")));
    destruct (URL_parses b);
    try (destruct (5000 <=? t)); try (destruct (t <=? 300000));
    cbn [app andb negb]; split; try split; intros;
    try reflexivity; try discriminate.
Qed.

Lemma loadConfig_run (w : World) :
  loadConfig env w
  = if resolvable env
    then (Returned tt, mkWorld (Some (resolved env)) (calls w))
    else
      match resolved env with
      | VObj fields =>
          (Thrown (McpError InvalidRequest
                     ("Configuration error: "
                      ++ ZodError_message
                           (shape_issues (declared_shape ConfigSchema) []
                              fields))), w)
      | _ => (Returned tt, w)
      end.
Proof.
  pose proof config_issues as H.
  unfold loadConfig, try_catch, bind, zod_parse.
  fold (key_setting env). fold (base_url_setting env).
  fold (timeout_setting env).
  change (VObj (object _)) with (resolved env).
  unfold resolved in *.
  unfold ConfigSchema at 1. rewrite safeParse_object.
  change (shape_issues _ [] ?f) with
    (shape_issues (declared_shape ConfigSchema) [] f).
  change (shape_output _ [] ?f) with
    (shape_output (declared_shape ConfigSchema) [] f).
  destruct H as [Hiff Hout].
  destruct (resolvable env) eqn:Hr.
  - rewrite (proj2 Hiff eq_refl), (Hout eq_refl).
    cbv beta iota delta [ret set_this_config].
    rewrite member_truthy by reflexivity.
    cbv beta iota.
    assert (Hk : JS.truthy (key_setting env) = true).
    { unfold resolvable in Hr.
      destruct (JS.truthy (key_setting env)); [reflexivity | discriminate]. }
    destruct (key_setting env) as [kv |] eqn:Ek; [| discriminate Hk].
    cbn [object JS.get_prop_opt JS.get_prop JS.lookup String.eqb Ascii.eqb
         Bool.eqb].
    rewrite Hk. reflexivity.
  - destruct (shape_issues _ _ _) eqn:Ei.
    + discriminate (proj1 Hiff eq_refl).
    + reflexivity.
Qed.

End ConfigurationFacts.

Section DispatchFacts.

Context {P : Platform}.
Variable env : list (string * string).
Variable net : Request -> FetchOutcome.

Lemma ensureConfigured_run (w : World) :
  ensureConfigured env w
  = if JS.truthy (config w) then (Returned tt, w) else loadConfig env w.
Proof.
  unfold ensureConfigured, bind, this_config.
  destruct (JS.truthy (config w)); reflexivity.
Qed.

Lemma resolved_truthy : JS.truthy (Some (resolved env)) = true.
Proof. reflexivity. Qed.

Lemma generation_unconfigured (tool : GenerationTool) (args : option value)
  (w : World) (e : exn) (w' : World) :
  ensureConfigured env w = (Thrown e, w') ->
  handler_of tool env net args w = (Thrown e, w').
Proof.
  intros H.
  destruct tool; cbn [handler_of];
    [unfold handleVideoToAudio | unfold handleTextToAudio];
    set (rest := try_catch _ _); unfold bind; rewrite H; reflexivity.
Qed.

Lemma generation_answer_kinds (tool : GenerationTool)
  (args input : option value) (w : World) :
  JS.truthy (config w) = true ->
  safeParse (input_schema tool) args = inl input ->
  match fst (handler_of tool env net args w) with
  | Returned _ => True
  | Thrown e => generation_error e
  end.
Proof.
  intros Hc Hp.
  destruct tool; cbn [handler_of input_schema] in *;
    [unfold handleVideoToAudio | unfold handleTextToAudio];
    (set (rest := try_catch _ _);
     unfold bind at 1;
     rewrite (ensureConfigured_ready _ _ Hc);
     subst rest;
     cbv beta iota delta [try_catch bind zod_parse this_config ret throw];
     rewrite Hp;
     cbv beta iota;
     rewrite !member_truthy by assumption;
     cbv beta iota;
     rewrite fetch_run;
     match goal with
     | |- context [net ?req] => destruct (net req) as [r | msg]
     end;
     [| exact I];
     cbv beta iota delta [json_parse member ret throw zod_parse];
     repeat (destruct_innermost; cbv beta iota; try exact I)).
Qed.

(** Every way a generation handler can end, from any world: the error
    kinds, and the requests sent. *)
Lemma generation_outcome (tool : GenerationTool) (args : option value)
  (w : World) :
  match fst (handler_of tool env net args w) with
  | Returned _ => True
  | Thrown e => generation_error e
  end
  /\ (calls (snd (handler_of tool env net args w)) = calls w
      \/ exists req,
           calls (snd (handler_of tool env net args w))
           = (calls w ++ [req])%list).
Proof.
  destruct (ensureConfigured env w) as [[u | e] w'] eqn:Hcfg.
  - destruct (ensureConfigured_returns _ _ _ _ Hcfg) as [Ht Hcalls].
    rewrite (generation_configured env net tool args _ _ _ Hcfg).
    destruct (safeParse (input_schema tool) args) as [input | issues] eqn:Hp.
    + split.
      * exact (generation_answer_kinds tool args input w' Ht Hp).
      * right. rewrite (generation_sends env net tool _ _ _ Ht Hp).
        cbn [calls]. rewrite Hcalls. eexists. reflexivity.
    + rewrite (generation_rejects env net tool _ _ _ Ht Hp).
      cbn [fst snd]. split; [exact I | left; exact Hcalls].
  - rewrite (generation_unconfigured tool args _ _ _ Hcfg). cbn [fst snd].
    rewrite ensureConfigured_run in Hcfg.
    destruct (JS.truthy (config w)); [discriminate Hcfg |].
    rewrite loadConfig_run in Hcfg.
    destruct (resolvable env); [discriminate Hcfg |].
    destruct (resolved env); try discriminate Hcfg.
    injection Hcfg as <- <-. split; [exact I | left; reflexivity].
Qed.

Lemma validate_outcome (args : option value) (w : World) :
  (exists t req,
     handleValidateApiKey net args w
     = (Returned t, mkWorld (config w) (calls w ++ [req])))
  \/ handleValidateApiKey net args w
     = (Thrown (McpError InvalidRequest "No API key provided"), w)
  \/ (exists msg,
        (args = None \/ args = Some VNull)
        /\ handleValidateApiKey net args w
           = (Thrown (JsError "TypeError" msg), w)).
Proof.
  destruct (member args "api_key" w) as [[override | e] w0] eqn:Hm.
  - assert (w0 = w) as ->
        by (rewrite <- (member_quiet args "api_key" w), Hm; reflexivity).
    destruct (JS.truthy
                (JS.or_else override (JS.get_prop_opt (config w) "apiKey")))
      eqn:Hk.
    + left. destruct (validate_with_key net _ _ _ Hm Hk) as (t & Hrun & _).
      eexists. eexists. exact Hrun.
    + right. left. exact (validate_without_key net _ _ _ Hm Hk).
  - right. right.
    rewrite (validate_member_throws net _ _ _ _ Hm).
    destruct args as [[| | | | | |]|]; cbn in Hm; try discriminate Hm;
      injection Hm as <- <-; eexists; (split; [| reflexivity]); auto.
Qed.

Lemma callTool_generation (tool : GenerationTool) (args : option value)
  (w : World) :
  callTool env net (tool_name tool) args w
  = match handler_of tool env net args w with
    | (Returned t, w') => (Returned t, w')
    | (Thrown (McpError code msg), w') => (Thrown (McpError code msg), w')
    | (Thrown e, w') =>
        (Thrown (McpError InternalError
                   ("Tool execution failed: " ++ error_message e)), w')
    end.
Proof.
  unfold callTool, try_catch.
  destruct tool; cbn [tool_name handler_of].
  - change (String.eqb "video_to_audio" "video_to_audio") with true.
    cbv beta iota.
    destruct (handleVideoToAudio env net args w)
      as [[t | [issues | code msg | name msg]] w']; reflexivity.
  - change (String.eqb "text_to_audio" "video_to_audio") with false.
    change (String.eqb "text_to_audio" "text_to_audio") with true.
    cbv beta iota.
    destruct (handleTextToAudio env net args w)
      as [[t | [issues | code msg | name msg]] w']; reflexivity.
Qed.

Lemma callTool_unknown (name : string) (args : option value) (w : World) :
  ~ In name listed_names ->
  callTool env net name args w
  = (Thrown (McpError MethodNotFound ("Unknown tool: " ++ name)), w).
Proof.
  intros Hn. unfold callTool, try_catch.
  assert (H1 : String.eqb name "video_to_audio" = false).
  { apply String.eqb_neq. intros ->. apply Hn. cbn. tauto. }
  assert (H2 : String.eqb name "text_to_audio" = false).
  { apply String.eqb_neq. intros ->. apply Hn. cbn. tauto. }
  assert (H3 : String.eqb name "validate_api_key" = false).
  { apply String.eqb_neq. intros ->. apply Hn. cbn. tauto. }
  rewrite H1, H2, H3. reflexivity.
Qed.

Lemma listed_name_cases (name : string) :
  In name listed_names ->
  name = "video_to_audio" \/ name = "text_to_audio"
  \/ name = "validate_api_key".
Proof.
  cbn. intros [H | [H | [H | []]]]; auto.
Qed.

End DispatchFacts.

(** ** Configuration *)

Lemma loadConfig_fails {P : Platform} (env : list (string * string))
  (w : World) :
  resolvable env = false ->
  exists reason,
    loadConfig env w
    = (Thrown (McpError InvalidRequest ("Configuration error: " ++ reason)),
       w).
Proof.
  intros Hr. rewrite loadConfig_run, Hr. unfold resolved.
  eexists. reflexivity.
Qed.

(** X1.  When the key is not empty, the base URL parses and the timeout
    lies in [5000, 300000], [loadConfig] succeeds, sends nothing, and
    stores exactly these three settings; [start] then goes on with that
    configuration. *)
Theorem configuration_resolves {P : Platform}
  (env : list (string * string)) (w : World) :
  resolvable env = true ->
  loadConfig env w = (Returned tt, mkWorld (Some (resolved env)) (calls w))
  /\ start env w = inl (mkWorld (Some (resolved env)) (calls w))
  /\ exists k b t,
       resolved env
       = VObj [ ("apiKey", VStr k); ("baseUrl", VStr b);
                ("timeout", VNum (inject_Z t)) ]
       /\ key_setting env = Some (VStr k) /\ k <> ""
       /\ base_url_setting env = Some (VStr b) /\ URL_parses b = true
       /\ timeout_setting env = Some t /\ 5000 <= t <= 300000.
Proof.
  intros Hr. split; [rewrite loadConfig_run, Hr; reflexivity |].
  split; [unfold start; rewrite loadConfig_run, Hr; reflexivity |].
  - unfold resolvable in Hr. unfold resolved.
    destruct (base_url_setting_string env) as [b Hb]. rewrite Hb in *.
    destruct (key_setting_string env) as [Hk | [k Hk]]; rewrite Hk in *;
      [discriminate Hr |].
    destruct (timeout_setting env) as [t |];
      [| rewrite andb_false_r in Hr; discriminate Hr].
    apply andb_prop in Hr. destruct Hr as [Hr Ht].
    apply andb_prop in Hr. destruct Hr as [Hkey Hurl].
    apply andb_prop in Ht. destruct Ht as [Hlo Hhi].
    exists k, b, t. repeat split; try assumption; try reflexivity.
    + intros ->. discriminate Hkey.
    + apply Z.leb_le. exact Hlo.
    + apply Z.leb_le. exact Hhi.
Qed.

(** X2.  In every other case - no key or an empty one, a base URL that
    does not parse, a timeout that is not a number or lies outside the
    range - [loadConfig] throws a configuration error, leaves the world
    as it was (no configuration is stored), and [start] exits with
    code 1. *)
Theorem unresolvable_configuration_is_rejected {P : Platform}
  (env : list (string * string)) (w : World) :
  resolvable env = false ->
  (exists reason,
     loadConfig env w
     = (Thrown (McpError InvalidRequest ("Configuration error: " ++ reason)),
        w))
  /\ start env w = inr 1.
Proof.
  intros Hr.
  pose proof (loadConfig_fails env w Hr) as H.
  split; [exact H |].
  destruct H as [reason H]. unfold start. rewrite H. reflexivity.
Qed.

(** X3.  The configuration is loaded once: after [ensureConfigured] has
    succeeded, it succeeds again without touching the world whatever the
    environment has become, and a generation handler no longer depends on
    the environment. *)
Theorem configuration_is_loaded_once {P : Platform}
  (env : list (string * string)) (w w' : World) :
  ensureConfigured env w = (Returned tt, w') ->
  forall env',
    ensureConfigured env' w' = (Returned tt, w')
    /\ forall tool net args,
         handler_of tool env' net args w' = handler_of tool env net args w'.
Proof.
  intros Hcfg env'.
  destruct (ensureConfigured_returns _ _ _ _ Hcfg) as [Ht _].
  split; [apply ensureConfigured_ready; exact Ht |].
  intros tool net args.
  destruct tool; cbn [handler_of];
    [unfold handleVideoToAudio | unfold handleTextToAudio];
    set (rest := try_catch _ _); unfold bind;
    rewrite !(ensureConfigured_ready _ _ Ht); reflexivity.
Qed.

(** X4.  While the configuration cannot be resolved, a generation tool
    fails with the configuration error before it looks at its arguments:
    the same error for every input, no request, and no configuration
    stored, so that the next call tries again. *)
Theorem configuration_failure_precedes_validation {P : Platform}
  (env : list (string * string)) (w : World) :
  JS.truthy (config w) = false ->
  resolvable env = false ->
  exists reason,
    forall tool net args,
      handler_of tool env net args w
      = (Thrown (McpError InvalidRequest ("Configuration error: " ++ reason)),
         w).
Proof.
  intros Hc Hr.
  destruct (loadConfig_fails env w Hr) as [reason Hload].
  exists reason. intros tool net args.
  apply generation_unconfigured.
  rewrite ensureConfigured_run, Hc. exact Hload.
Qed.

(** ** The dispatcher *)

(** X5.  No raw exception leaves a tool call: it returns, or it throws
    an [McpError]; and the code of that error is [MethodNotFound] exactly
    when the name is not one of those the tool list advertises. *)
Theorem tool_call_throws_mcp_errors_only {P : Platform}
  (env : list (string * string)) (net : Request -> FetchOutcome)
  (name : string) (args : option value) (w : World) :
  match fst (callTool env net name args w) with
  | Returned _ => True
  | Thrown (McpError code _) =>
      code = MethodNotFound <-> ~ In name listed_names
  | Thrown _ => False
  end.
Proof.
  destruct (in_dec string_dec name listed_names) as [Hin | Hout].
  - assert (Hno : forall code : ErrorCode,
               code <> MethodNotFound ->
               (code = MethodNotFound <-> ~ In name listed_names))
      by (intros code Hc; split; [intros; contradiction | intros H; elim (H Hin)]).
    destruct (listed_name_cases name Hin) as [-> | [-> | ->]].
    + rewrite (callTool_generation env net VideoToAudio).
      pose proof (proj1 (generation_outcome env net VideoToAudio args w)) as H.
      destruct (handler_of VideoToAudio env net args w)
        as [[t | [issues | [] msg | n msg]] w']; cbn [fst] in *;
        try exact I; try contradiction; apply Hno; discriminate.
    + rewrite (callTool_generation env net TextToAudio).
      pose proof (proj1 (generation_outcome env net TextToAudio args w)) as H.
      destruct (handler_of TextToAudio env net args w)
        as [[t | [issues | [] msg | n msg]] w']; cbn [fst] in *;
        try exact I; try contradiction; apply Hno; discriminate.
    + rewrite callTool_validate.
      destruct (validate_outcome net args w)
        as [(t & req & H) | [H | (msg & _ & H)]]; rewrite H; cbn [fst];
        try exact I; apply Hno; discriminate.
  - rewrite (callTool_unknown env net name args w Hout). cbn [fst].
    split; [intros _; exact Hout | reflexivity].
Qed.

(** X6.  A tool call sends at most one request, and never drops or
    reorders the requests sent before it. *)
Theorem tool_call_sends_at_most_one_request {P : Platform}
  (env : list (string * string)) (net : Request -> FetchOutcome)
  (name : string) (args : option value) (w : World) :
  calls (snd (callTool env net name args w)) = calls w
  \/ exists req,
       calls (snd (callTool env net name args w)) = (calls w ++ [req])%list.
Proof.
  destruct (in_dec string_dec name listed_names) as [Hin | Hout].
  - destruct (listed_name_cases name Hin) as [-> | [-> | ->]].
    + rewrite (callTool_generation env net VideoToAudio).
      pose proof (proj2 (generation_outcome env net VideoToAudio args w)) as H.
      destruct (handler_of VideoToAudio env net args w)
        as [[t | [issues | code msg | n msg]] w']; exact H.
    + rewrite (callTool_generation env net TextToAudio).
      pose proof (proj2 (generation_outcome env net TextToAudio args w)) as H.
      destruct (handler_of TextToAudio env net args w)
        as [[t | [issues | code msg | n msg]] w']; exact H.
    + rewrite callTool_validate.
      destruct (validate_outcome net args w)
        as [(t & req & H) | [H | (msg & _ & H)]]; rewrite H; cbn [snd calls];
        [right; eexists; reflexivity | left; reflexivity | left; reflexivity].
  - rewrite (callTool_unknown env net name args w Hout). left. reflexivity.
Qed.

(** ** What the schemas let through *)

Section ContractFacts.

Context {P : Platform}.

Lemma shape_issues_nil_field (shape : list (string * ZodType))
  (p : list string) (fields : list (string * value)) (k : string)
  (t : ZodType) :
  schema_field shape k = Some t ->
  shape_issues shape p fields = [] ->
  fst (parse_node t (p ++ [k])%list (JS.lookup k fields)) = [].
Proof.
  induction shape as [| [k' t'] rest IH]; cbn [schema_field shape_issues];
    [discriminate |].
  intros Hf Hnil. apply app_eq_nil in Hnil. destruct Hnil as [Hk Hrest].
  destruct (String.eqb k k') eqn:E.
  - apply String.eqb_eq in E. subst k'. injection Hf as <-. exact Hk.
  - apply IH; assumption.
Qed.

Lemma schema_field_none (shape : list (string * ZodType)) (k : string) :
  ~ In k (map fst shape) -> schema_field shape k = None.
Proof.
  induction shape as [| [k' t'] rest IH]; cbn [schema_field map fst];
    [reflexivity |].
  intros Hk. destruct (String.eqb k k') eqn:E.
  - apply String.eqb_eq in E. subst k'. elim Hk. left. reflexivity.
  - apply IH. intros Hin. apply Hk. right. exact Hin.
Qed.

Lemma lookup_none (fields : list (string * value)) (k : string) :
  ~ In k (JS.keys fields) -> JS.lookup k fields = None.
Proof.
  induction fields as [| [k' v] rest IH]; cbn; [reflexivity |].
  intros Hk. destruct (String.eqb k k') eqn:E.
  - apply String.eqb_eq in E. subst k'. elim Hk. left. reflexivity.
  - apply IH. intros Hin. apply Hk. right. exact Hin.
Qed.

Lemma shape_output_lookup (shape : list (string * ZodType))
  (p : list string) (fields : list (string * value)) (k : string) :
  NoDup (map fst shape) ->
  JS.lookup k (shape_output shape p fields)
  = match schema_field shape k with
    | Some t => snd (parse_node t (p ++ [k])%list (JS.lookup k fields))
    | None => None
    end.
Proof.
  induction shape as [| [k' t'] rest IH];
    cbn [shape_output schema_field map fst]; [reflexivity |].
  intros Hnd. inversion Hnd as [| ? ? Hnotin Hrest]; subst.
  destruct (String.eqb k k') eqn:E.
  - apply String.eqb_eq in E. subst k'.
    destruct (snd (parse_node t' (p ++ [k])%list (JS.lookup k fields)))
      as [v |].
    + cbn [JS.lookup]. rewrite String.eqb_refl. reflexivity.
    + apply lookup_none. intros Hin. apply Hnotin.
      apply (shape_output_keys rest p fields). exact Hin.
  - destruct (snd (parse_node t' (p ++ [k'])%list (JS.lookup k' fields)))
      as [v |].
    + cbn [JS.lookup]. rewrite E. apply IH. exact Hrest.
    + apply IH. exact Hrest.
Qed.

(** A flat type hands on the value it accepted unchanged, and its default
    for a missing one. *)
Lemma flat_output (t : ZodType) (p : list string) (data : option value) :
  flat t = true ->
  fst (parse_node t p data) = [] ->
  snd (parse_node t p data)
  = match data with
    | Some v => Some v
    | None => default_of t
    end.
Proof.
  revert data.
  induction t as [checks | checks | inner IH | inner IH | inner IH d | shape];
    intros data Hflat Hnil; cbn [flat] in Hflat.
  - destruct data as [[| | | | s | |]|]; cbn in Hnil |- *;
      try discriminate Hnil; reflexivity.
  - destruct data as [[| | q | | | |]|]; cbn in Hnil |- *;
      try discriminate Hnil; reflexivity.
  - destruct data as [v |]; [| reflexivity].
    cbn [parse_node] in *. exact (IH (Some v) Hflat Hnil).
  - destruct data as [[| | | | | |]|]; cbn [parse_node default_of] in *;
      try reflexivity;
      match goal with
      | |- snd (parse_node inner p ?d) = _ => exact (IH d Hflat Hnil)
      end.
  - destruct data as [v |]; cbn [parse_node default_of] in *.
    + exact (IH (Some v) Hflat Hnil).
    + exact (IH (Some d) Hflat Hnil).
  - discriminate Hflat.
Qed.

Lemma input_shape_flat (tool : GenerationTool) (k : string) (t : ZodType) :
  schema_field (declared_shape (input_schema tool)) k = Some t ->
  flat t = true.
Proof.
  destruct tool; cbn [input_schema];
    unfold VideoToAudioInputSchema, TextToAudioInputSchema;
    cbn [declared_shape schema_field];
    repeat (destruct (String.eqb k _);
            [intros H; injection H as <-; reflexivity |]);
    discriminate.
Qed.

Lemma input_shape_nodup (tool : GenerationTool) :
  NoDup (map fst (declared_shape (input_schema tool))).
Proof.
  destruct tool; cbn;
    repeat (constructor; [cbn; intuition discriminate |]); constructor.
Qed.

Lemma input_schema_is_object (tool : GenerationTool) :
  input_schema tool = ZodObject (declared_shape (input_schema tool)).
Proof. destruct tool; reflexivity. Qed.

Lemma lookup_in (fields : list (string * value)) (k : string) (v : value) :
  JS.lookup k fields = Some v -> In (k, v) fields.
Proof.
  induction fields as [| [k' v'] rest IH]; cbn; [discriminate |].
  destruct (String.eqb k k') eqn:E.
  - apply String.eqb_eq in E. subst k'. intros H. injection H as <-.
    left. reflexivity.
  - intros H. right. apply IH. exact H.
Qed.

End ContractFacts.

(** X7.  The body a generation tool sends is its arguments cut down to
    the declared keys and completed with the defaults: under every key it
    holds the value supplied, unchanged, else the default of the key, and
    nothing under a key the schema does not declare. *)
Theorem request_body_is_arguments_with_defaults {P : Platform}
  (tool : GenerationTool) (env : list (string * string))
  (net : Request -> FetchOutcome) (fields : list (string * value))
  (input : option value) (w w' : World) :
  ensureConfigured env w = (Returned tt, w') ->
  safeParse (input_schema tool) (Some (VObj fields)) = inl input ->
  exists sent req,
    calls (snd (handler_of tool env net (Some (VObj fields)) w))
    = (calls w ++ [req])%list
    /\ body req = Some (VObj sent)
    /\ forall k, JS.lookup k sent = forwarded tool fields k.
Proof.
  intros Hcfg Hp.
  destruct (ensureConfigured_returns _ _ _ _ Hcfg) as [Htruthy Hcalls].
  pose proof Hp as Hp'.
  rewrite input_schema_is_object in Hp'.
  destruct (safeParse_object_inv _ _ _ Hp') as (given & Hgiven & Hnil & Hin).
  injection Hgiven as <-.
  exists (shape_output (declared_shape (input_schema tool)) [] fields).
  eexists. repeat split.
  - rewrite (generation_configured env net tool _ _ _ _ Hcfg).
    rewrite (generation_sends env net tool _ _ _ Htruthy Hp).
    cbn [calls]. rewrite Hcalls. reflexivity.
  - cbn [body generation_request]. exact Hin.
  - intros k. rewrite (shape_output_lookup _ _ _ _ (input_shape_nodup tool)).
    unfold forwarded.
    destruct (schema_field (declared_shape (input_schema tool)) k)
      as [t |] eqn:Hf; [| reflexivity].
    apply flat_output.
    + exact (input_shape_flat tool k t Hf).
    + exact (shape_issues_nil_field _ _ _ _ _ Hf Hnil).
Qed.

(** X8.  The defaults the tool list advertises are the defaults applied:
    for a key the arguments leave out, a generation tool forwards exactly
    the [default] advertised for it, and nothing when none is
    advertised. *)
Theorem advertised_defaults_are_applied (tool : GenerationTool)
  (fields : list (string * value)) (k : string) :
  JS.lookup k fields = None ->
  forwarded tool fields k = advertised tool k "default".
Proof.
  intros Hl. unfold forwarded, advertised. rewrite Hl.
  destruct tool;
    [ let l := eval vm_compute in (advertised_properties VideoToAudio) in
      change (advertised_properties VideoToAudio) with l
    | let l := eval vm_compute in (advertised_properties TextToAudio) in
      change (advertised_properties TextToAudio) with l ];
    cbn [input_schema]; unfold VideoToAudioInputSchema, TextToAudioInputSchema;
    cbn [declared_shape schema_field JS.lookup];
    repeat (destruct (String.eqb k _); [reflexivity |]);
    reflexivity.
Qed.

Lemma advertised_property (tool : GenerationTool) (k attr : string)
  (a : value) :
  advertised tool k attr = Some a ->
  exists v,
    In (k, v) (advertised_properties tool)
    /\ JS.get_prop_opt (Some v) attr = Some a.
Proof.
  unfold advertised.
  destruct (JS.lookup k (advertised_properties tool)) as [v |] eqn:E;
    [| discriminate].
  intros H. exists v. split; [exact (lookup_in _ _ _ E) | exact H].
Qed.

(** The issues of a property of the arguments are among those of the
    whole. *)
Lemma accepted_field {P : Platform} (tool : GenerationTool)
  (fields : list (string * value)) (k : string) (t : ZodType) :
  accepts (input_schema tool) (Some (VObj fields)) = true ->
  schema_field (declared_shape (input_schema tool)) k = Some t ->
  fst (parse_node t ([] ++ [k])%list (JS.lookup k fields)) = [].
Proof.
  intros Hacc Hf.
  rewrite input_schema_is_object, accepts_object in Hacc.
  destruct (shape_issues (declared_shape (input_schema tool)) [] fields)
    eqn:Hnil; [| discriminate Hacc].
  exact (shape_issues_nil_field _ _ _ _ _ Hf Hnil).
Qed.

(** X9.  The bounds the tool list advertises are enforced: a number
    accepted under a key lies between the [minimum] and the [maximum]
    advertised for that key, both included. *)
Theorem advertised_bounds_are_enforced {P : Platform} (tool : GenerationTool)
  (fields : list (string * value)) (k : string) (lo hi q : Q) :
  advertised tool k "minimum" = Some (VNum lo) ->
  advertised tool k "maximum" = Some (VNum hi) ->
  JS.lookup k fields = Some (VNum q) ->
  accepts (input_schema tool) (Some (VObj fields)) = true ->
  (lo <= q)%Q /\ (q <= hi)%Q.
Proof.
  intros Hmin Hmax Hl Hacc.
  destruct (advertised_property _ _ _ _ Hmin) as (v & Hin & Hv).
  destruct tool; vm_compute in Hin;
    repeat (destruct Hin as [Hin | Hin]); try contradiction;
    injection Hin as <- <-;
    vm_compute in Hv; try discriminate Hv; injection Hv as <-;
    vm_compute in Hmax; injection Hmax as <-;
    match type of Hl with
    | JS.lookup ?key _ = _ =>
        pose proof (accepted_field _ fields key _ Hacc eq_refl) as Hnil
    end;
    rewrite Hl in Hnil;
    cbn [parse_node fst flat_map number_check app] in Hnil;
    repeat match type of Hnil with
           | context [if JS.is_integer q then _ else _] =>
               destruct (JS.is_integer q); [| discriminate Hnil]
           end;
    cbn [app] in Hnil;
    match type of Hnil with
    | context [Qle_bool ?a q] =>
        destruct (Qle_bool a q) eqn:Hlo; [| discriminate Hnil]
    end;
    match type of Hnil with
    | context [Qle_bool q ?b] =>
        destruct (Qle_bool q b) eqn:Hhi; [| discriminate Hnil]
    end;
    apply Qle_bool_iff in Hlo; apply Qle_bool_iff in Hhi;
    split; assumption.
Qed.

(** X10.  A property advertised with type [integer] is held to it: a
    number accepted under such a key is an integer. *)
Theorem advertised_integers_are_enforced {P : Platform}
  (tool : GenerationTool) (fields : list (string * value)) (k : string)
  (q : Q) :
  advertised tool k "type" = Some (VStr "integer") ->
  JS.lookup k fields = Some (VNum q) ->
  accepts (input_schema tool) (Some (VObj fields)) = true ->
  JS.is_integer q = true.
Proof.
  intros Hty Hl Hacc.
  destruct (advertised_property _ _ _ _ Hty) as (v & Hin & Hv).
  destruct tool; vm_compute in Hin;
    repeat (destruct Hin as [Hin | Hin]); try contradiction;
    injection Hin as <- <-;
    vm_compute in Hv; try discriminate Hv;
    match type of Hl with
    | JS.lookup ?key _ = _ =>
        pose proof (accepted_field _ fields key _ Hacc eq_refl) as Hnil
    end;
    rewrite Hl in Hnil;
    cbn [parse_node fst flat_map number_check app] in Hnil;
    (destruct (JS.is_integer q); [reflexivity | discriminate Hnil]).
Qed.

(** X11.  The properties the tool list advertises as required are
    required: arguments that leave one out are rejected, and the issue
    "Required" is raised under that property's name. *)
Theorem advertised_required_are_enforced {P : Platform}
  (tool : GenerationTool) (fields : list (string * value)) (k : string) :
  In k (advertised_required tool) ->
  JS.lookup k fields = None ->
  exists issues,
    safeParse (input_schema tool) (Some (VObj fields)) = inr issues
    /\ In (mkIssue [k] "Required") issues.
Proof.
  intros Hreq Hl.
  assert (Hin : In (mkIssue [k] "Required")
                  (shape_issues (declared_shape (input_schema tool)) []
                     fields)).
  { destruct tool; vm_compute in Hreq;
      repeat (destruct Hreq as [Hreq | Hreq]); try contradiction; subst k;
      match type of Hl with
      | JS.lookup ?key _ = _ =>
          refine (shape_issues_in _ _ _ key _ _ _ _);
          [ cbn [input_schema declared_shape VideoToAudioInputSchema
                 TextToAudioInputSchema In];
            repeat (first [left; reflexivity | right])
          | rewrite Hl; left; reflexivity ]
      end. }
  rewrite input_schema_is_object, safeParse_object.
  destruct (shape_issues (declared_shape (input_schema tool)) [] fields)
    as [| i issues]; [destruct Hin |].
  exists (i :: issues). split; [reflexivity | exact Hin].
Qed.

(** X12.  Nothing but the required properties is required: a non-empty
    prompt alone is accepted by [text_to_audio], and a non-empty prompt
    with a video URL that parses is accepted by [video_to_audio]. *)
Theorem required_properties_suffice {P : Platform} (u p : string) :
  p <> "" ->
  accepts TextToAudioInputSchema (Some (VObj [("prompt", VStr p)])) = true
  /\ (URL_parses u = true ->
      accepts VideoToAudioInputSchema
        (Some (VObj [("video_url", VStr u); ("prompt", VStr p)])) = true).
Proof.
  intros Hp. destruct p as [| c p]; [contradiction |].
  split; [reflexivity |].
  intros Hu. unfold accepts, safeParse.
  cbn [VideoToAudioInputSchema parse_node JS.lookup String.eqb Ascii.eqb
       Bool.eqb flat_map string_check app fst snd].
  rewrite Hu. reflexivity.
Qed.

(** X13.  The two tools differ on [seed: null]: [video_to_audio] accepts
    it whenever it accepts the other arguments, and [text_to_audio]
    rejects it. *)
Theorem null_seed_is_for_video_only {P : Platform}
  (fields : list (string * value)) :
  (accepts VideoToAudioInputSchema (Some (VObj fields)) = true ->
   accepts VideoToAudioInputSchema
     (Some (VObj (JS.set_field "seed" VNull fields))) = true)
  /\ (JS.lookup "seed" fields = Some VNull ->
      accepts TextToAudioInputSchema (Some (VObj fields)) = false).
Proof.
  split.
  - unfold VideoToAudioInputSchema.
    rewrite !accepts_object; cbn [shape_issues].
    rewrite lookup_set_field_same.
    rewrite !lookup_set_field_other by reflexivity.
    intros H.
    match type of H with
    | match ?L with _ => _ end = true =>
        destruct L eqn:E; [clear H | discriminate H]
    end.
    repeat match goal with
           | H : (_ ++ _)%list = [] |- _ =>
               apply app_eq_nil in H; destruct H
           end.
    repeat match goal with
           | H : fst (parse_node _ _ (JS.lookup _ fields)) = [] |- _ =>
               rewrite H
           end.
    reflexivity.
  - intros Hl. unfold TextToAudioInputSchema.
    apply (rejected_when_issue _ _
             (mkIssue ["seed"] "Expected number, received null")).
    refine (shape_issues_in _ _ _ "seed" _ _ _ _).
    + cbn [In]. repeat (first [left; reflexivity | right]).
    + rewrite Hl. left. reflexivity.
Qed.

(** ** Generation: the answers *)

Section AnswerFacts.

Context {P : Platform}.
Variable env : list (string * string).
Variable net : Request -> FetchOutcome.

(** What validation guarantees about the two properties the success
    envelope echoes. *)
Lemma validated_input (tool : GenerationTool) (args input : option value) :
  safeParse (input_schema tool) args = inl input ->
  exists sent d p,
    input = Some (VObj sent)
    /\ JS.lookup "duration" sent = Some (VNum d)
    /\ (inject_Z 1 <= d)%Q /\ (d <= inject_Z 30)%Q
    /\ JS.lookup "prompt" sent = Some (VStr p) /\ p <> "".
Proof.
  intros Hp. rewrite input_schema_is_object in Hp.
  destruct (safeParse_object_inv _ _ _ Hp) as (fields & _ & Hnil & ->).
  exists (shape_output (declared_shape (input_schema tool)) [] fields).
  assert (Hd : exists td,
             schema_field (declared_shape (input_schema tool)) "duration"
             = Some td
             /\ td = ZodDefault (ZodNumber [CheckMin 1; CheckMax 30])
                       (VNum (inject_Z 8)))
    by (destruct tool; eexists; split; reflexivity).
  assert (Hpr : exists tp,
              schema_field (declared_shape (input_schema tool)) "prompt"
              = Some tp
              /\ tp = ZodString
                        [CheckMinLength 1 (Some "Prompt is required")])
    by (destruct tool; eexists; split; reflexivity).
  destruct Hd as (td & Hfd & ->). destruct Hpr as (tp & Hfp & ->).
  pose proof (shape_issues_nil_field _ _ _ _ _ Hfd Hnil) as Hnd.
  pose proof (shape_issues_nil_field _ _ _ _ _ Hfp Hnil) as Hnp.
  rewrite !(shape_output_lookup _ _ _ _ (input_shape_nodup tool)).
  rewrite Hfd, Hfp.
  destruct (JS.lookup "prompt" fields) as [[| | | | p | |]|];
    cbn [parse_node fst snd flat_map string_check app] in Hnp |- *;
    try discriminate Hnp.
  assert (Hne : p <> "") by (intros ->; discriminate Hnp).
  destruct (JS.lookup "duration" fields) as [[| | d | | | |]|];
    cbn [parse_node fst snd flat_map number_check app] in Hnd |- *;
    try discriminate Hnd.
  - destruct (Qle_bool (inject_Z 1) d) eqn:Hlo; [| discriminate Hnd].
    destruct (Qle_bool d (inject_Z 30)) eqn:Hhi; [| discriminate Hnd].
    apply Qle_bool_iff in Hlo. apply Qle_bool_iff in Hhi.
    exists d, p. repeat split; assumption.
  - exists (inject_Z 8), p. repeat split; try assumption;
      apply Qle_bool_iff; reflexivity.
Qed.

(** What validation guarantees about a 2xx body: the descriptor with its
    four properties, of the right types, and nothing else. *)
Lemma validated_response (tool : GenerationTool) (answer : value)
  (validated : option value) :
  safeParse (response_schema tool) (Some answer) = inl validated ->
  exists u ct fn fs,
    validated
    = Some (VObj [ (descriptor_key tool,
                    VObj [ ("url", VStr u); ("content_type", VStr ct);
                           ("file_name", VStr fn); ("file_size", VNum fs) ]) ])
    /\ URL_parses u = true
    /\ (let descriptor := JS.get_prop answer (descriptor_key tool) in
        JS.get_prop_opt descriptor "url" = Some (VStr u)
        /\ JS.get_prop_opt descriptor "content_type" = Some (VStr ct)
        /\ JS.get_prop_opt descriptor "file_name" = Some (VStr fn)
        /\ JS.get_prop_opt descriptor "file_size" = Some (VNum fs)).
Proof.
  intros Hp.
  assert (Hs : response_schema tool
               = ZodObject [(descriptor_key tool, AudioResponseSchema)])
    by (destruct tool; reflexivity).
  rewrite Hs in Hp.
  destruct (safeParse_object_inv _ _ _ Hp) as (fields & Hans & Hnil & ->).
  injection Hans as ->. cbn [JS.get_prop].
  cbn [shape_issues shape_output] in *.
  rewrite app_nil_r in Hnil.
  destruct (JS.lookup (descriptor_key tool) fields)
    as [[| | | | | | dfields]|]; try discriminate Hnil.
  unfold AudioResponseSchema in *. rewrite parse_object in *.
  cbn [fst snd shape_issues shape_output] in *.
  repeat match type of Hnil with
         | (_ ++ _)%list = [] =>
             apply app_eq_nil in Hnil;
             let H := fresh "Hfield" in destruct Hnil as [H Hnil]
         end.
  destruct (JS.lookup "url" dfields) as [[| | | | u | |]|] eqn:Hurl;
    cbn [parse_node fst snd flat_map string_check app] in *;
    try discriminate.
  destruct (URL_parses u) eqn:Hu; [| discriminate].
  destruct (JS.lookup "content_type" dfields) as [[| | | | ct | |]|] eqn:Hct;
    cbn [parse_node fst snd flat_map string_check app] in *;
    try discriminate.
  destruct (JS.lookup "file_name" dfields) as [[| | | | fn | |]|] eqn:Hfn;
    cbn [parse_node fst snd flat_map string_check app] in *;
    try discriminate.
  destruct (JS.lookup "file_size" dfields) as [[| | fs | | | |]|] eqn:Hfs;
    cbn [parse_node fst snd flat_map number_check app] in *;
    try discriminate.
  exists u, ct, fn, fs. split; [reflexivity |]. split; [exact Hu |].
  cbn [JS.get_prop_opt JS.get_prop]. repeat split; assumption.
Qed.

Ltac run_generation Hc Hp Hnet :=
  set (rest := try_catch _ _);
  unfold bind at 1;
  rewrite (ensureConfigured_ready _ _ Hc);
  subst rest;
  cbv beta iota delta [try_catch bind zod_parse this_config ret throw];
  rewrite Hp;
  cbv beta iota;
  rewrite !member_truthy by assumption;
  cbv beta iota;
  rewrite fetch_run;
  unfold generation_request in Hnet;
  rewrite Hnet; cbv beta iota.

Lemma generation_network_failure (tool : GenerationTool)
  (args input : option value) (w : World) (msg : string) :
  JS.truthy (config w) = true ->
  safeParse (input_schema tool) args = inl input ->
  net (generation_request (endpoint tool) (config w) input)
  = NetworkFailure msg ->
  fst (handler_of tool env net args w) = Thrown (JsError "FetchError" msg).
Proof.
  intros Hc Hp Hnet.
  destruct tool; cbn [handler_of input_schema endpoint] in *;
    [unfold handleVideoToAudio | unfold handleTextToAudio];
    run_generation Hc Hp Hnet; reflexivity.
Qed.

Lemma generation_unparsable_answer (tool : GenerationTool)
  (args input : option value) (w : World) (r : Response) (msg : string) :
  JS.truthy (config w) = true ->
  safeParse (input_schema tool) args = inl input ->
  net (generation_request (endpoint tool) (config w) input) = Responded r ->
  ok r = true ->
  JSON_parse (text r) = inr msg ->
  fst (handler_of tool env net args w) = Thrown (JsError "SyntaxError" msg).
Proof.
  intros Hc Hp Hnet Hok Hjson.
  destruct tool; cbn [handler_of input_schema endpoint] in *;
    [unfold handleVideoToAudio | unfold handleTextToAudio];
    run_generation Hc Hp Hnet; rewrite Hok; cbn [negb];
    cbv beta iota delta [json_parse ret throw];
    rewrite Hjson; reflexivity.
Qed.

Lemma generation_success (tool : GenerationTool)
  (args : option value) (sent : list (string * value)) (w : World)
  (r : Response) (answer : value) (u ct fn : string) (fs d : Q) (p : string) :
  JS.truthy (config w) = true ->
  safeParse (input_schema tool) args = inl (Some (VObj sent)) ->
  net (generation_request (endpoint tool) (config w) (Some (VObj sent)))
  = Responded r ->
  ok r = true ->
  JSON_parse (text r) = inl answer ->
  safeParse (response_schema tool) (Some answer)
  = inl (Some (VObj [ (descriptor_key tool,
                       VObj [ ("url", VStr u); ("content_type", VStr ct);
                              ("file_name", VStr fn);
                              ("file_size", VNum fs) ]) ])) ->
  JS.lookup "duration" sent = Some (VNum d) ->
  JS.lookup "prompt" sent = Some (VStr p) ->
  fst (handler_of tool env net args w)
  = Returned (generated tool (VStr u) (VStr ct) (VStr fn) (VNum fs)
                (VNum d) (VStr p)).
Proof.
  intros Hc Hp Hnet Hok Hjson Hresp Hd Hpr.
  destruct tool;
    cbn [handler_of input_schema endpoint response_schema descriptor_key]
      in *;
    [unfold handleVideoToAudio | unfold handleTextToAudio];
    run_generation Hc Hp Hnet; rewrite Hok; cbn [negb];
    cbv beta iota delta [json_parse ret throw zod_parse];
    rewrite Hjson; cbv beta iota; rewrite Hresp;
    cbv beta iota delta [member ret JS.get_prop];
    cbn [JS.lookup String.eqb Ascii.eqb Bool.eqb];
    rewrite Hd, Hpr; reflexivity.
Qed.

End AnswerFacts.

(** X14.  On a 2xx answer whose body passes the response schema, a
    generation tool returns the success envelope, and its [result] holds
    exactly six properties: the URL (one that parses), content type, file
    name and file size of the body's descriptor, and the duration (within
    [1, 30]) and the non-empty prompt of the validated input. *)
Theorem success_envelope_echoes_answer_and_request {P : Platform}
  (tool : GenerationTool) (env : list (string * string))
  (net : Request -> FetchOutcome) (args input : option value)
  (w w' : World) (r : Response) (answer : value) :
  ensureConfigured env w = (Returned tt, w') ->
  safeParse (input_schema tool) args = inl input ->
  net (generation_request (endpoint tool) (config w') input) = Responded r ->
  ok r = true ->
  JSON_parse (text r) = inl answer ->
  accepts (response_schema tool) (Some answer) = true ->
  exists u ct fn fs d p,
    fst (callTool env net (tool_name tool) args w)
    = Returned (generated tool (VStr u) (VStr ct) (VStr fn) (VNum fs)
                  (VNum d) (VStr p))
    /\ URL_parses u = true
    /\ (let descriptor := JS.get_prop answer (descriptor_key tool) in
        JS.get_prop_opt descriptor "url" = Some (VStr u)
        /\ JS.get_prop_opt descriptor "content_type" = Some (VStr ct)
        /\ JS.get_prop_opt descriptor "file_name" = Some (VStr fn)
        /\ JS.get_prop_opt descriptor "file_size" = Some (VNum fs))
    /\ JS.get_prop_opt input "duration" = Some (VNum d)
    /\ (inject_Z 1 <= d)%Q /\ (d <= inject_Z 30)%Q
    /\ JS.get_prop_opt input "prompt" = Some (VStr p) /\ p <> "".
Proof.
  intros Hcfg Hp Hnet Hok Hjson Hacc.
  destruct (ensureConfigured_returns _ _ _ _ Hcfg) as [Htruthy _].
  destruct (validated_input tool args input Hp)
    as (sent & d & p & -> & Hd & Hlo & Hhi & Hpr & Hne).
  unfold accepts in Hacc.
  destruct (safeParse (response_schema tool) (Some answer))
    as [validated | issues] eqn:Hresp; [| discriminate Hacc].
  destruct (validated_response tool answer validated Hresp)
    as (u & ct & fn & fs & -> & Hu & Hdesc).
  exists u, ct, fn, fs, d, p.
  split; [| repeat split; try assumption; apply Hdesc].
  rewrite callTool_generation.
  rewrite (generation_configured env net tool args _ _ _ Hcfg).
  pose proof (generation_success env net tool args sent w' r answer
                u ct fn fs d p Htruthy Hp Hnet Hok Hjson Hresp Hd Hpr) as H.
  destruct (handler_of tool env net args w') as [res w2]. cbn [fst] in H.
  rewrite H. reflexivity.
Qed.

(** X15.  When the request fails before any answer, a generation tool
    call ends in [InternalError] with "Tool execution failed: " and the
    message of the failure; the one request has been sent. *)
Theorem transport_failure_is_an_internal_error {P : Platform}
  (tool : GenerationTool) (env : list (string * string))
  (net : Request -> FetchOutcome) (args input : option value)
  (w w' : World) (msg : string) :
  ensureConfigured env w = (Returned tt, w') ->
  safeParse (input_schema tool) args = inl input ->
  net (generation_request (endpoint tool) (config w') input)
  = NetworkFailure msg ->
  callTool env net (tool_name tool) args w
  = (Thrown (McpError InternalError ("Tool execution failed: " ++ msg)),
     mkWorld (config w')
       (calls w ++ [generation_request (endpoint tool) (config w') input])).
Proof.
  intros Hcfg Hp Hnet.
  destruct (ensureConfigured_returns _ _ _ _ Hcfg) as [Htruthy Hcalls].
  rewrite callTool_generation.
  rewrite (generation_configured env net tool args _ _ _ Hcfg).
  pose proof (generation_network_failure env net tool args input w' msg
                Htruthy Hp Hnet) as Hf.
  pose proof (generation_sends env net tool args input w' Htruthy Hp) as Hs.
  destruct (handler_of tool env net args w') as [res w2].
  cbn [fst snd] in Hf, Hs. rewrite Hf, Hs, Hcalls. reflexivity.
Qed.

(** X16.  A 2xx answer whose body is not JSON is not a validation
    matter: the tool call ends in [InternalError] with the message of the
    parse error. *)
Theorem unparsable_answer_is_an_internal_error {P : Platform}
  (tool : GenerationTool) (env : list (string * string))
  (net : Request -> FetchOutcome) (args input : option value)
  (w w' : World) (r : Response) (msg : string) :
  ensureConfigured env w = (Returned tt, w') ->
  safeParse (input_schema tool) args = inl input ->
  net (generation_request (endpoint tool) (config w') input) = Responded r ->
  ok r = true ->
  JSON_parse (text r) = inr msg ->
  fst (callTool env net (tool_name tool) args w)
  = Thrown (McpError InternalError ("Tool execution failed: " ++ msg)).
Proof.
  intros Hcfg Hp Hnet Hok Hjson.
  destruct (ensureConfigured_returns _ _ _ _ Hcfg) as [Htruthy _].
  rewrite callTool_generation.
  rewrite (generation_configured env net tool args _ _ _ Hcfg).
  pose proof (generation_unparsable_answer env net tool args input w' r msg
                Htruthy Hp Hnet Hok Hjson) as Hf.
  destruct (handler_of tool env net args w') as [res w2].
  cbn [fst] in Hf. rewrite Hf. reflexivity.
Qed.

(** ** validate_api_key: the answers *)

Section KeyCheckFacts.

Context {P : Platform}.
Variable env : list (string * string).
Variable net : Request -> FetchOutcome.

Lemma validate_sent (args : option value) (w : World) (req : Request) :
  calls (snd (handleValidateApiKey net args w)) = (calls w ++ [req])%list ->
  exists override,
    member args "api_key" w = (Returned override, w)
    /\ JS.truthy
         (JS.or_else override (JS.get_prop_opt (config w) "apiKey")) = true
    /\ req = credits_request (config w)
               (JS.or_else override (JS.get_prop_opt (config w) "apiKey")).
Proof.
  intros Hcalls.
  destruct (member args "api_key" w) as [[override | e] w0] eqn:Hm;
    assert (w0 = w) as ->
      by (rewrite <- (member_quiet args "api_key" w), Hm; reflexivity).
  - destruct (JS.truthy
                (JS.or_else override (JS.get_prop_opt (config w) "apiKey")))
      eqn:Hk.
    + destruct (validate_with_key net _ _ _ Hm Hk) as (t & Hrun & _).
      rewrite Hrun in Hcalls. cbn [snd calls] in Hcalls.
      apply app_inv_head in Hcalls. injection Hcalls as Hreq.
      exists override. split; [reflexivity |]. split; [exact Hk |].
      symmetry. exact Hreq.
    + rewrite (validate_without_key net _ _ _ Hm Hk) in Hcalls.
      cbn [snd] in Hcalls. exfalso. exact (not_own_extension _ _ Hcalls).
  - rewrite (validate_member_throws net _ _ _ _ Hm) in Hcalls.
    cbn [snd] in Hcalls. exfalso. exact (not_own_extension _ _ Hcalls).
Qed.

Lemma validate_answer (args override : option value) (w : World)
  (r : Response) :
  member args "api_key" w = (Returned override, w) ->
  let apiKey := JS.or_else override (JS.get_prop_opt (config w) "apiKey") in
  JS.truthy apiKey = true ->
  net (credits_request (config w) apiKey) = Responded r ->
  fst (handleValidateApiKey net args w)
  = Returned
      (if status r =? 401 then authentication_failed
       else if negb (ok r) then
         validation_failed
           ("HTTP " ++ JS.Z_to_string (status r) ++ ": " ++ text r)
       else
         match JSON_parse (text r) with
         | inr msg => validation_failed msg
         | inl VNull =>
             validation_failed
               "Cannot read properties of null (reading 'credits')"
         | inl answer =>
             key_is_valid
               (JS.or_else (JS.get_prop answer "credits")
                  (Some (VStr "Unknown")))
         end).
Proof.
  intros Hm apiKey Hk Hnet. unfold handleValidateApiKey.
  unfold bind at 1. rewrite Hm.
  cbv beta iota delta [bind this_config try_catch].
  fold apiKey. rewrite Hk. cbn [negb]. cbv beta iota.
  rewrite fetch_run. fold (credits_request (config w) apiKey).
  rewrite Hnet. cbv beta iota.
  destruct (status r =? 401); [reflexivity |].
  destruct (ok r); cbn [negb]; [| reflexivity].
  cbv beta iota delta [json_parse bind ret throw].
  destruct (JSON_parse (text r)) as [[| b | q | | s | items | fields] | msg];
    reflexivity.
Qed.

End KeyCheckFacts.

(** X17.  [validate_api_key] turns every answer other than a 2xx with a
    JSON body into an envelope with [valid: false]: a status that is
    neither 401 nor 2xx is reported as "HTTP <status>: <body>", and a 2xx
    body that is not JSON with the message of the parse error. *)
Theorem key_check_reports_bad_answers {P : Platform}
  (env : list (string * string)) (net : Request -> FetchOutcome)
  (args : option value) (w : World) (req : Request) (r : Response) :
  calls (snd (callTool env net "validate_api_key" args w))
  = (calls w ++ [req])%list ->
  net req = Responded r ->
  status r <> 401 ->
  (ok r = false ->
   fst (callTool env net "validate_api_key" args w)
   = Returned (validation_failed
                 ("HTTP " ++ JS.Z_to_string (status r) ++ ": " ++ text r)))
  /\ (forall msg, ok r = true -> JSON_parse (text r) = inr msg ->
      fst (callTool env net "validate_api_key" args w)
      = Returned (validation_failed msg)).
Proof.
  rewrite callTool_validate. intros Hcalls Hnet Hs.
  assert (Hsent : calls (snd (handleValidateApiKey net args w))
                  = (calls w ++ [req])%list).
  { destruct (handleValidateApiKey net args w)
      as [[t | [issues | code msg | name msg]] w0]; exact Hcalls. }
  destruct (validate_sent net args w req Hsent) as (override & Hm & Hk & ->).
  pose proof (validate_answer net args override w r Hm Hk Hnet) as Hrun.
  apply Z.eqb_neq in Hs. rewrite Hs in Hrun.
  destruct (handleValidateApiKey net args w) as [res w0].
  cbn [fst] in Hrun. subst res. split.
  - intros Hok. rewrite Hok. reflexivity.
  - intros msg Hok Hjson. rewrite Hok, Hjson. reflexivity.
Qed.

(** X18.  On a 2xx answer with a JSON body, [validate_api_key] returns
    the envelope with [valid: true]; its [credits] is the body's
    [credits] when that is truthy and "Unknown" otherwise - so for a
    missing [credits], and also for a balance of 0. *)
Theorem key_check_reports_credits {P : Platform}
  (env : list (string * string)) (net : Request -> FetchOutcome)
  (args : option value) (w : World) (req : Request) (r : Response)
  (answer : list (string * value)) :
  calls (snd (callTool env net "validate_api_key" args w))
  = (calls w ++ [req])%list ->
  net req = Responded r ->
  ok r = true ->
  JSON_parse (text r) = inl (VObj answer) ->
  fst (callTool env net "validate_api_key" args w)
  = Returned (key_is_valid
                (Some (if JS.truthy (JS.lookup "credits" answer)
                       then match JS.lookup "credits" answer with
                            | Some credits => credits
                            | None => VStr "Unknown"
                            end
                       else VStr "Unknown"))).
Proof.
  rewrite callTool_validate. intros Hcalls Hnet Hok Hjson.
  assert (Hsent : calls (snd (handleValidateApiKey net args w))
                  = (calls w ++ [req])%list).
  { destruct (handleValidateApiKey net args w)
      as [[t | [issues | code msg | name msg]] w0]; exact Hcalls. }
  destruct (validate_sent net args w req Hsent) as (override & Hm & Hk & ->).
  pose proof (validate_answer net args override w r Hm Hk Hnet) as Hrun.
  assert (Hs : (status r =? 401) = false).
  { unfold ok in Hok. apply andb_prop in Hok. destruct Hok as [_ Hhi].
    apply Z.ltb_lt in Hhi. apply Z.eqb_neq. lia. }
  rewrite Hs, Hok, Hjson in Hrun. cbn [negb JS.get_prop] in Hrun.
  destruct (handleValidateApiKey net args w) as [res w0].
  cbn [fst] in Hrun. subst res.
  unfold JS.or_else.
  destruct (JS.lookup "credits" answer) as [c |];
    [destruct (JS.truthy (Some c)) |]; reflexivity.
Qed.

(** X19.  [validate_api_key] ends in one of three ways and no other: it
    returns an envelope, having sent one request; it is refused with "No
    API key provided", having sent none; or, called without an arguments
    object, it fails on reading [api_key], having sent none.  In no case
    does it load or change the configuration. *)
Theorem key_check_outcomes {P : Platform}
  (env : list (string * string)) (net : Request -> FetchOutcome)
  (args : option value) (w : World) :
  config (snd (callTool env net "validate_api_key" args w)) = config w
  /\ ((exists t req,
         callTool env net "validate_api_key" args w
         = (Returned t, mkWorld (config w) (calls w ++ [req])))
      \/ callTool env net "validate_api_key" args w
         = (Thrown (McpError InvalidRequest "No API key provided"), w)
      \/ ((args = None \/ args = Some VNull)
          /\ exists msg,
               callTool env net "validate_api_key" args w
               = (Thrown (McpError InternalError
                            ("Tool execution failed: " ++ msg)), w))).
Proof.
  rewrite callTool_validate.
  destruct (validate_outcome net args w)
    as [(t & req & H) | [H | (msg & Hargs & H)]]; rewrite H.
  - split; [reflexivity |]. left. exists t, req. reflexivity.
  - split; [reflexivity |]. right. left. reflexivity.
  - split; [reflexivity |]. right. right. split; [exact Hargs |].
    exists msg. reflexivity.
Qed.

Lemma nonempty_truthy (k : string) :
  k <> "" -> JS.truthy (Some (VStr k)) = true.
Proof.
  destruct k; [contradiction | reflexivity].
Qed.

(** X20.  For a call of [validate_api_key] that carries an arguments
    object, the key checked is the [api_key] given, else the configured
    one: the one request is a GET whose Authorization header is "Bearer "
    followed by that key; when neither holds a key the call is refused
    with "No API key provided" and nothing is sent. *)
Theorem key_checked_is_the_bearer {P : Platform}
  (env : list (string * string)) (net : Request -> FetchOutcome)
  (fields : list (string * value)) (w : World) :
  let run := callTool env net "validate_api_key" (Some (VObj fields)) w in
  let sends (k : string) :=
    exists t req,
      run = (Returned t, mkWorld (config w) (calls w ++ [req]))
      /\ method req = "GET"
      /\ headers req
         = [ ("Authorization", "Bearer " ++ k);
             ("User-Agent", "MMAudio-DXT/1.0.0") ] in
  (forall k, JS.lookup "api_key" fields = Some (VStr k) -> k <> "" ->
     sends k)
  /\ (forall k, JS.truthy (JS.lookup "api_key" fields) = false ->
      JS.get_prop_opt (config w) "apiKey" = Some (VStr k) -> k <> "" ->
      sends k)
  /\ (JS.truthy (JS.lookup "api_key" fields) = false ->
      JS.truthy (JS.get_prop_opt (config w) "apiKey") = false ->
      run = (Thrown (McpError InvalidRequest "No API key provided"), w)).
Proof.
  intros run sends. subst run sends. cbv beta.
  rewrite callTool_validate.
  assert (Hm : member (Some (VObj fields)) "api_key" w
               = (Returned (JS.lookup "api_key" fields), w)) by reflexivity.
  repeat split.
  - intros k Hl Hk.
    destruct (validate_with_key net _ _ _ Hm) as (t & Hrun & _).
    { rewrite Hl. unfold JS.or_else. rewrite (nonempty_truthy k Hk).
      exact (nonempty_truthy k Hk). }
    rewrite Hl in Hrun. unfold JS.or_else in Hrun.
    rewrite (nonempty_truthy k Hk) in Hrun.
    rewrite Hrun. eexists. eexists. repeat split.
  - intros k Ho Hc Hk.
    destruct (validate_with_key net _ _ _ Hm) as (t & Hrun & _).
    { unfold JS.or_else. rewrite Ho, Hc. exact (nonempty_truthy k Hk). }
    unfold JS.or_else in Hrun. rewrite Ho, Hc in Hrun.
    rewrite Hrun. eexists. eexists. repeat split.
  - intros Ho Hc.
    rewrite (validate_without_key net _ _ _ Hm).
    + reflexivity.
    + unfold JS.or_else. rewrite Ho. exact Hc.
Qed.

(* ================================================================== *)
(** * Closed instances *)
(* ================================================================== *)

#[local] Existing Instance Sample.platform.

Example start_with_credential :
  start Sample.env Sample.unconfigured = inl Sample.configured.
Proof. reflexivity. Qed.

Example start_without_credential :
  start [] Sample.unconfigured = inr 1.
Proof. reflexivity. Qed.

Example text_to_audio_round_trip :
  fst (callTool Sample.env (Sample.answering 200 Sample.audio_body)
         "text_to_audio" Sample.rain_on_leaves Sample.configured)
  = Returned (TextContent (VObj
      [ ("success", VBool true);
        ("message", VStr "Audio generated successfully from text");
        ("result", VObj
           [ ("audio_url", VStr "https://cdn.mmaudio.net/a.wav");
             ("content_type", VStr "audio/wav");
             ("file_name", VStr "a.wav");
             ("file_size", VNum (inject_Z 4096));
             ("duration", VNum (inject_Z 8));
             ("prompt", VStr "rain on leaves") ]) ])).
Proof. vm_compute. reflexivity. Qed.

Example every_issue_is_listed :
  fst (callTool Sample.env Sample.unreachable "text_to_audio"
         (Some (VObj [ ("duration", VNum (inject_Z 0));
                       ("num_steps", VNum (1 # 2)) ]))
         Sample.configured)
  = Thrown (McpError InvalidParams
      ("Invalid input parameters: prompt: Required, "
       ++ "duration: Number must be greater than or equal to 1, "
       ++ "num_steps: Expected integer, received float, "
       ++ "num_steps: Number must be greater than or equal to 1")).
Proof. vm_compute. reflexivity. Qed.

Example unknown_tool :
  fst (callTool Sample.env Sample.unreachable "credits" None
         Sample.configured)
  = Thrown (McpError MethodNotFound "Unknown tool: credits").
Proof. vm_compute. reflexivity. Qed.

(** [validate_api_key] reads [args.api_key] before anything else: a call
    without an arguments object stops there. *)
Example validate_api_key_without_arguments :
  callTool Sample.env Sample.unreachable "validate_api_key" None
    Sample.configured
  = (Thrown (McpError InternalError
       ("Tool execution failed: "
        ++ "Cannot read properties of undefined (reading 'api_key')")),
     Sample.configured).
Proof. vm_compute. reflexivity. Qed.

Lemma validation_gates_the_request_witness :
  ensureConfigured Sample.env Sample.unconfigured
  = (Returned tt, Sample.configured)
  /\ (handleTextToAudio Sample.env Sample.unreachable
        (Some (VObj [("duration", VNum (inject_Z 8))])) Sample.unconfigured
      = (Thrown (McpError InvalidParams
                   "Invalid input parameters: prompt: Required"),
         Sample.configured)
      /\ calls Sample.configured = calls Sample.unconfigured)
  /\ calls (snd (handleVideoToAudio Sample.env Sample.unreachable
                   Sample.surf_clip Sample.unconfigured))
     = [generation_request "/api/video-to-audio" (Some Sample.loaded)
          (Some (VObj
             [ ("video_url", VStr "https://cdn.mmaudio.net/surf.mp4");
               ("prompt", VStr "waves");
               ("negative_prompt", VStr "");
               ("num_steps", VNum (inject_Z 25));
               ("duration", VNum (inject_Z 8));
               ("cfg_strength", VNum (9 # 2)) ]))].
Proof.
  split; [reflexivity |]. split.
  - exact (validation_gates_the_request TextToAudio Sample.env
             Sample.unreachable
             (Some (VObj [("duration", VNum (inject_Z 8))]))
             Sample.unconfigured Sample.configured eq_refl).
  - exact (validation_gates_the_request VideoToAudio Sample.env
             Sample.unreachable Sample.surf_clip
             Sample.unconfigured Sample.configured eq_refl).
Defined.

(** C2.  The code at a 200 response whose body lacks [file_size]: the
    field is not defaulted and the call fails, but with the error code
    and the "Invalid input parameters" message of a caller whose own
    arguments are invalid (second equation), not with an error of its
    own kind. *)
Theorem malformed_upstream_body_reported_as_invalid_input :
  fst (callTool Sample.env
         (Sample.answering 200 Sample.video_body_without_file_size)
         "video_to_audio" Sample.surf_clip Sample.configured)
  = Thrown (McpError InvalidParams
              "Invalid input parameters: video.file_size: Required")
  /\ fst (callTool Sample.env
            (Sample.answering 200 Sample.video_body_without_file_size)
            "video_to_audio" (Some (VObj [("prompt", VStr "waves")]))
            Sample.configured)
     = Thrown (McpError InvalidParams
                 "Invalid input parameters: video_url: Required").
Proof.
  split; vm_compute; reflexivity.
Qed.

(** C3 as stated fails: a 500 response with the body [{"error":"boom"}]
    gives a generic error whose message is "boom"; the status is not in
    it, neither as thrown by the handler nor as rethrown by the
    dispatcher. *)
Lemma generic_upstream_error_omits_status :
  let run :=
    handleTextToAudio Sample.env (Sample.answering 500 Sample.error_body)
      Sample.rain_on_leaves Sample.configured in
  let reported :=
    callTool Sample.env (Sample.answering 500 Sample.error_body)
      "text_to_audio" Sample.rain_on_leaves Sample.configured in
  fst run = Thrown (JsError "Error" "boom")
  /\ fst reported
     = Thrown (McpError InternalError "Tool execution failed: boom")
  /\ ~ (exists e, (fst run = Thrown e \/ fst reported = Thrown e)
                  /\ includes "500" (error_message e) = true).
Proof.
  cbv zeta. split; [vm_compute; reflexivity |].
  split; [vm_compute; reflexivity |].
  intros (e & [He | He] & Hinc);
    vm_compute in He; injection He as <-;
    vm_compute in Hinc; discriminate Hinc.
Qed.

Lemma upstream_failure_is_mapped_witness :
  ensureConfigured Sample.env Sample.configured
  = (Returned tt, Sample.configured)
  /\ safeParse TextToAudioInputSchema Sample.rain_on_leaves
     = inl Sample.rain_on_leaves_body
  /\ Sample.answering 502 "Bad Gateway"
       (generation_request "/api/text-to-audio" (Some Sample.loaded)
          Sample.rain_on_leaves_body)
     = Responded (mkResponse 502 "Bad Gateway")
  /\ ok (mkResponse 502 "Bad Gateway") = false
  /\ upstream_failure_mapping TextToAudio (mkResponse 502 "Bad Gateway")
       (fst (handleTextToAudio Sample.env
               (Sample.answering 502 "Bad Gateway")
               Sample.rain_on_leaves Sample.configured)).
Proof.
  split; [reflexivity |]. split; [reflexivity |].
  split; [reflexivity |]. split; [reflexivity |].
  exact (upstream_failure_is_mapped TextToAudio Sample.env
           (Sample.answering 502 "Bad Gateway") Sample.rain_on_leaves
           Sample.rain_on_leaves_body Sample.configured Sample.configured
           (mkResponse 502 "Bad Gateway") eq_refl eq_refl eq_refl eq_refl).
Defined.


(** A setting with a fraction is read up to the point: 300000.9 is
    tested, and stored, as 300000. *)
Example timeout_fraction_is_dropped :
  loadConfig [("MMAUDIO_API_KEY", "sk-test"); ("MMAUDIO_TIMEOUT", "300000.9")]
    Sample.unconfigured
  = (Returned tt,
     mkWorld
       (Some (VObj [ ("apiKey", VStr "sk-test");
                     ("baseUrl", VStr "https://mmaudio.net");
                     ("timeout", VNum (inject_Z 300000)) ]))
       []).
Proof. vm_compute. reflexivity. Qed.


Lemma rain_on_leaves_gets_defaults_witness :
  ensureConfigured Sample.env Sample.unconfigured
  = (Returned tt, Sample.configured)
  /\ safeParse TextToAudioInputSchema Sample.rain_on_leaves
     = inl Sample.rain_on_leaves_body
  /\ exists req,
       calls (snd (handleTextToAudio Sample.env
                     (Sample.answering 200 Sample.audio_body)
                     Sample.rain_on_leaves Sample.unconfigured))
       = (calls Sample.unconfigured ++ [req])%list
       /\ body req = Sample.rain_on_leaves_body.
Proof.
  split; [reflexivity |].
  exact (rain_on_leaves_gets_defaults Sample.env
           (Sample.answering 200 Sample.audio_body)
           Sample.unconfigured Sample.configured eq_refl).
Defined.

Lemma duration_bounds_are_inclusive_witness :
  JS.lookup "duration"
    [("prompt", VStr "rain"); ("duration", VNum (inject_Z 31))]
  = Some (VNum (inject_Z 31))
  /\ accepts TextToAudioInputSchema
       (Some (VObj [("prompt", VStr "rain");
                    ("duration", VNum (inject_Z 31))])) = false
  /\ accepts VideoToAudioInputSchema Sample.surf_clip = true
  /\ accepts VideoToAudioInputSchema
       (Some (VObj [ ("video_url", VStr "https://cdn.mmaudio.net/surf.mp4");
                     ("prompt", VStr "waves");
                     ("duration", VNum (inject_Z 30)) ])) = true.
Proof.
  split; [reflexivity |]. split.
  - exact (proj1 (duration_bounds_are_inclusive TextToAudio
                    [("prompt", VStr "rain");
                     ("duration", VNum (inject_Z 31))])
             31 (or_intror eq_refl) eq_refl).
  - split; [reflexivity |].
    exact (proj2 (duration_bounds_are_inclusive VideoToAudio
                    [ ("video_url", VStr "https://cdn.mmaudio.net/surf.mp4");
                      ("prompt", VStr "waves") ])
             eq_refl 30 (or_intror eq_refl)).
Defined.

Lemma key_check_failures_are_envelopes_witness :
  calls (snd (callTool Sample.env Sample.unreachable "validate_api_key"
                (Some (VObj [("api_key", VStr "sk-other")]))
                Sample.configured))
  = (calls Sample.configured
     ++ [credits_request (Some Sample.loaded) (Some (VStr "sk-other"))])%list
  /\ Sample.unreachable
       (credits_request (Some Sample.loaded) (Some (VStr "sk-other")))
     = NetworkFailure "connect ECONNREFUSED 127.0.0.1:443"
  /\ fst (callTool Sample.env Sample.unreachable "validate_api_key"
            (Some (VObj [("api_key", VStr "sk-other")])) Sample.configured)
     = Returned (validation_failed "connect ECONNREFUSED 127.0.0.1:443").
Proof.
  split; [reflexivity |]. split; [reflexivity |].
  exact (proj2 (key_check_failures_are_envelopes Sample.env
                  Sample.unreachable
                  (Some (VObj [("api_key", VStr "sk-other")]))
                  Sample.configured
                  (credits_request (Some Sample.loaded)
                     (Some (VStr "sk-other")))
                  eq_refl)
           "connect ECONNREFUSED 127.0.0.1:443" eq_refl).
Defined.

Lemma key_is_override_else_configured_witness :
  JS.truthy (JS.lookup "api_key" []) = false
  /\ JS.truthy (JS.get_prop_opt (config Sample.unconfigured) "apiKey") = false
  /\ handleValidateApiKey Sample.unreachable (Some (VObj []))
       Sample.unconfigured
     = (Thrown (McpError InvalidRequest "No API key provided"),
        Sample.unconfigured)
  /\ JS.truthy (JS.get_prop_opt (config Sample.configured) "apiKey") = true
  /\ calls (snd (handleValidateApiKey Sample.unreachable (Some (VObj []))
                   Sample.configured))
     = [credits_request (Some Sample.loaded) (Some (VStr "sk-test"))].
Proof.
  split; [reflexivity |]. split; [reflexivity |]. split.
  - exact (proj1 (key_is_override_else_configured Sample.unreachable []
                    Sample.unconfigured) eq_refl eq_refl).
  - split; [reflexivity |].
    exact (proj2 (proj2 (key_is_override_else_configured Sample.unreachable
                           [] Sample.configured)) eq_refl eq_refl).
Defined.

Lemma explicit_key_needs_no_configuration_witness :
  JS.truthy (JS.lookup "api_key" [("api_key", VStr "sk-other")]) = true
  /\ (exists t,
        callTool [] (Sample.answering 401 "") "validate_api_key"
          (Some (VObj [("api_key", VStr "sk-other")])) Sample.unconfigured
        = (Returned t,
           mkWorld None
             [credits_request None (Some (VStr "sk-other"))]))
  /\ url (credits_request None (Some (VStr "sk-other")))
     = "https://mmaudio.net/api/credits".
Proof.
  split; [reflexivity |].
  pose proof (explicit_key_needs_no_configuration []
                (Sample.answering 401 "") [("api_key", VStr "sk-other")]
                Sample.unconfigured eq_refl) as H.
  split; [exact (proj1 H) | exact (proj2 (proj2 H) eq_refl)].
Defined.

Lemma undeclared_fields_are_stripped_witness :
  ensureConfigured Sample.env Sample.configured
  = (Returned tt, Sample.configured)
  /\ safeParse TextToAudioInputSchema
       (Some (VObj [ ("prompt", VStr "rain on leaves");
                     ("api_key", VStr "sk-other");
                     ("volume", VNum (inject_Z 11)) ]))
     = inl Sample.rain_on_leaves_body
  /\ exists sent req,
       calls (snd (handleTextToAudio Sample.env Sample.unreachable
                     (Some (VObj [ ("prompt", VStr "rain on leaves");
                                   ("api_key", VStr "sk-other");
                                   ("volume", VNum (inject_Z 11)) ]))
                     Sample.configured))
       = (calls Sample.configured ++ [req])%list
       /\ body req = Some (VObj sent)
       /\ incl (JS.keys sent) (declared_keys TextToAudioInputSchema)
       /\ forall given k v,
            Some (VObj [ ("prompt", VStr "rain on leaves");
                         ("api_key", VStr "sk-other");
                         ("volume", VNum (inject_Z 11)) ])
            = Some (VObj given) ->
            ~ In k (declared_keys TextToAudioInputSchema) ->
            safeParse TextToAudioInputSchema
              (Some (VObj (JS.set_field k v given)))
            = inl (Some (VObj sent)).
Proof.
  split; [reflexivity |]. split; [reflexivity |].
  exact (undeclared_fields_are_stripped TextToAudio Sample.env
           Sample.unreachable
           (Some (VObj [ ("prompt", VStr "rain on leaves");
                         ("api_key", VStr "sk-other");
                         ("volume", VNum (inject_Z 11)) ]))
           Sample.rain_on_leaves_body Sample.configured Sample.configured
           eq_refl eq_refl).
Defined.

(** ** Closed instances of the further properties *)

Lemma configuration_resolves_witness :
  resolvable
    [("apiKey", "sk-bare"); ("MMAUDIO_API_KEY", "sk-test");
     ("baseUrl", "https://staging.mmaudio.net");
     ("MMAUDIO_TIMEOUT", "120000ms")] = true
  /\ loadConfig
       [("apiKey", "sk-bare"); ("MMAUDIO_API_KEY", "sk-test");
        ("baseUrl", "https://staging.mmaudio.net");
        ("MMAUDIO_TIMEOUT", "120000ms")] Sample.unconfigured
     = (Returned tt,
        mkWorld
          (Some (VObj [ ("apiKey", VStr "sk-test");
                        ("baseUrl", VStr "https://staging.mmaudio.net");
                        ("timeout", VNum (inject_Z 120000)) ]))
          []).
Proof.
  split; [reflexivity |].
  exact (proj1 (configuration_resolves
                  [("apiKey", "sk-bare"); ("MMAUDIO_API_KEY", "sk-test");
                   ("baseUrl", "https://staging.mmaudio.net");
                   ("MMAUDIO_TIMEOUT", "120000ms")]
                  Sample.unconfigured eq_refl)).
Defined.

Lemma unresolvable_configuration_is_rejected_witness :
  resolvable [("MMAUDIO_API_KEY", ""); ("MMAUDIO_TIMEOUT", "soon")] = false
  /\ (exists reason,
        loadConfig [("MMAUDIO_API_KEY", ""); ("MMAUDIO_TIMEOUT", "soon")]
          Sample.unconfigured
        = (Thrown (McpError InvalidRequest
                     ("Configuration error: " ++ reason)),
           Sample.unconfigured))
  /\ start [("MMAUDIO_API_KEY", ""); ("MMAUDIO_TIMEOUT", "soon")]
       Sample.unconfigured = inr 1.
Proof.
  split; [reflexivity |].
  exact (unresolvable_configuration_is_rejected
           [("MMAUDIO_API_KEY", ""); ("MMAUDIO_TIMEOUT", "soon")]
           Sample.unconfigured eq_refl).
Defined.

Lemma configuration_is_loaded_once_witness :
  ensureConfigured Sample.env Sample.unconfigured
  = (Returned tt, Sample.configured)
  /\ ensureConfigured [] Sample.configured = (Returned tt, Sample.configured)
  /\ forall tool net args,
       handler_of tool [] net args Sample.configured
       = handler_of tool Sample.env net args Sample.configured.
Proof.
  split; [reflexivity |].
  exact (configuration_is_loaded_once Sample.env Sample.unconfigured
           Sample.configured eq_refl []).
Defined.

Lemma configuration_failure_precedes_validation_witness :
  JS.truthy (config Sample.unconfigured) = false
  /\ resolvable [] = false
  /\ exists reason,
       forall tool net args,
         handler_of tool [] net args Sample.unconfigured
         = (Thrown (McpError InvalidRequest
                      ("Configuration error: " ++ reason)),
            Sample.unconfigured).
Proof.
  split; [reflexivity |]. split; [reflexivity |].
  exact (configuration_failure_precedes_validation [] Sample.unconfigured
           eq_refl eq_refl).
Defined.

Lemma request_body_is_arguments_with_defaults_witness :
  ensureConfigured Sample.env Sample.configured
  = (Returned tt, Sample.configured)
  /\ safeParse VideoToAudioInputSchema
       (Some (VObj [ ("video_url", VStr "https://cdn.mmaudio.net/surf.mp4");
                     ("prompt", VStr "waves");
                     ("seed", VNull);
                     ("loop", VBool true) ]))
     = inl (Some (VObj
         [ ("video_url", VStr "https://cdn.mmaudio.net/surf.mp4");
           ("prompt", VStr "waves");
           ("negative_prompt", VStr "");
           ("seed", VNull);
           ("num_steps", VNum (inject_Z 25));
           ("duration", VNum (inject_Z 8));
           ("cfg_strength", VNum (9 # 2)) ]))
  /\ exists sent req,
       calls (snd (handleVideoToAudio Sample.env Sample.unreachable
                     (Some (VObj
                        [ ("video_url",
                            VStr "https://cdn.mmaudio.net/surf.mp4");
                          ("prompt", VStr "waves");
                          ("seed", VNull);
                          ("loop", VBool true) ]))
                     Sample.configured))
       = (calls Sample.configured ++ [req])%list
       /\ body req = Some (VObj sent)
       /\ forall k,
            JS.lookup k sent
            = forwarded VideoToAudio
                [ ("video_url", VStr "https://cdn.mmaudio.net/surf.mp4");
                  ("prompt", VStr "waves");
                  ("seed", VNull);
                  ("loop", VBool true) ] k.
Proof.
  split; [reflexivity |]. split; [reflexivity |].
  exact (request_body_is_arguments_with_defaults VideoToAudio Sample.env
           Sample.unreachable
           [ ("video_url", VStr "https://cdn.mmaudio.net/surf.mp4");
             ("prompt", VStr "waves");
             ("seed", VNull);
             ("loop", VBool true) ]
           _ Sample.configured Sample.configured eq_refl eq_refl).
Defined.

Lemma advertised_defaults_are_applied_witness :
  JS.lookup "seed" [("prompt", VStr "rain on leaves")] = None
  /\ forwarded TextToAudio [("prompt", VStr "rain on leaves")] "seed"
     = Some (VNum (inject_Z 0))
  /\ forwarded VideoToAudio [("prompt", VStr "rain on leaves")] "seed"
     = None.
Proof.
  split; [reflexivity |]. split.
  - exact (advertised_defaults_are_applied TextToAudio
             [("prompt", VStr "rain on leaves")] "seed" eq_refl).
  - exact (advertised_defaults_are_applied VideoToAudio
             [("prompt", VStr "rain on leaves")] "seed" eq_refl).
Defined.

Lemma advertised_bounds_are_enforced_witness :
  advertised TextToAudio "cfg_strength" "minimum" = Some (VNum (inject_Z 1))
  /\ advertised TextToAudio "cfg_strength" "maximum"
     = Some (VNum (inject_Z 10))
  /\ accepts TextToAudioInputSchema
       (Some (VObj [ ("prompt", VStr "rain");
                     ("cfg_strength", VNum (15 # 2)) ])) = true
  /\ (inject_Z 1 <= 15 # 2)%Q /\ (15 # 2 <= inject_Z 10)%Q.
Proof.
  split; [reflexivity |]. split; [reflexivity |]. split; [reflexivity |].
  exact (advertised_bounds_are_enforced TextToAudio
           [("prompt", VStr "rain"); ("cfg_strength", VNum (15 # 2))]
           "cfg_strength" (inject_Z 1) (inject_Z 10) (15 # 2)
           eq_refl eq_refl eq_refl eq_refl).
Defined.

Lemma advertised_integers_are_enforced_witness :
  advertised VideoToAudio "seed" "type" = Some (VStr "integer")
  /\ accepts VideoToAudioInputSchema
       (Some (VObj [ ("video_url", VStr "https://cdn.mmaudio.net/surf.mp4");
                     ("prompt", VStr "waves");
                     ("seed", VNum (inject_Z 42)) ])) = true
  /\ JS.is_integer (inject_Z 42) = true.
Proof.
  split; [reflexivity |]. split; [reflexivity |].
  exact (advertised_integers_are_enforced VideoToAudio
           [ ("video_url", VStr "https://cdn.mmaudio.net/surf.mp4");
             ("prompt", VStr "waves");
             ("seed", VNum (inject_Z 42)) ]
           "seed" (inject_Z 42) eq_refl eq_refl eq_refl).
Defined.

Lemma advertised_required_are_enforced_witness :
  In "video_url" (advertised_required VideoToAudio)
  /\ JS.lookup "video_url" [("prompt", VStr "waves")] = None
  /\ exists issues,
       safeParse VideoToAudioInputSchema
         (Some (VObj [("prompt", VStr "waves")])) = inr issues
       /\ In (mkIssue ["video_url"] "Required") issues.
Proof.
  split; [left; reflexivity |]. split; [reflexivity |].
  exact (advertised_required_are_enforced VideoToAudio
           [("prompt", VStr "waves")] "video_url"
           (or_introl eq_refl) eq_refl).
Defined.

Lemma required_properties_suffice_witness :
  "waves" <> ""
  /\ accepts TextToAudioInputSchema (Some (VObj [("prompt", VStr "waves")]))
     = true
  /\ accepts VideoToAudioInputSchema
       (Some (VObj [ ("video_url", VStr "https://cdn.mmaudio.net/surf.mp4");
                     ("prompt", VStr "waves") ])) = true.
Proof.
  assert (Hne : "waves" <> "") by discriminate.
  split; [exact Hne |].
  pose proof (required_properties_suffice
                "https://cdn.mmaudio.net/surf.mp4" "waves" Hne) as H.
  split; [exact (proj1 H) | exact (proj2 H eq_refl)].
Defined.

Lemma null_seed_is_for_video_only_witness :
  accepts VideoToAudioInputSchema Sample.surf_clip = true
  /\ accepts VideoToAudioInputSchema
       (Some (VObj [ ("video_url", VStr "https://cdn.mmaudio.net/surf.mp4");
                     ("prompt", VStr "waves");
                     ("seed", VNull) ])) = true
  /\ accepts TextToAudioInputSchema
       (Some (VObj [("prompt", VStr "waves"); ("seed", VNull)])) = false.
Proof.
  split; [reflexivity |]. split.
  - exact (proj1 (null_seed_is_for_video_only
                    [ ("video_url", VStr "https://cdn.mmaudio.net/surf.mp4");
                      ("prompt", VStr "waves") ]) eq_refl).
  - exact (proj2 (null_seed_is_for_video_only
                    [("prompt", VStr "waves"); ("seed", VNull)]) eq_refl).
Defined.

Lemma success_envelope_echoes_answer_and_request_witness :
  ensureConfigured Sample.env Sample.unconfigured
  = (Returned tt, Sample.configured)
  /\ safeParse TextToAudioInputSchema Sample.rain_on_leaves
     = inl Sample.rain_on_leaves_body
  /\ Sample.answering 200 Sample.audio_body
       (generation_request "/api/text-to-audio" (Some Sample.loaded)
          Sample.rain_on_leaves_body)
     = Responded (mkResponse 200 Sample.audio_body)
  /\ ok (mkResponse 200 Sample.audio_body) = true
  /\ accepts TextToAudioResponseSchema
       (Some (VObj [("audio",
                     VObj [ ("url", VStr "https://cdn.mmaudio.net/a.wav");
                            ("content_type", VStr "audio/wav");
                            ("file_name", VStr "a.wav");
                            ("file_size", VNum (inject_Z 4096)) ])]))
     = true
  /\ exists u ct fn fs d p,
       fst (callTool Sample.env (Sample.answering 200 Sample.audio_body)
              "text_to_audio" Sample.rain_on_leaves Sample.unconfigured)
       = Returned (generated TextToAudio (VStr u) (VStr ct) (VStr fn)
                     (VNum fs) (VNum d) (VStr p))
       /\ u = "https://cdn.mmaudio.net/a.wav"
       /\ p = "rain on leaves".
Proof.
  assert (H1 : ensureConfigured Sample.env Sample.unconfigured
               = (Returned tt, Sample.configured)) by reflexivity.
  assert (H2 : safeParse TextToAudioInputSchema Sample.rain_on_leaves
               = inl Sample.rain_on_leaves_body) by reflexivity.
  assert (H3 : Sample.answering 200 Sample.audio_body
                 (generation_request "/api/text-to-audio"
                    (config Sample.configured) Sample.rain_on_leaves_body)
               = Responded (mkResponse 200 Sample.audio_body))
    by reflexivity.
  assert (H4 : ok (mkResponse 200 Sample.audio_body) = true) by reflexivity.
  assert (H5 : JSON_parse (text (mkResponse 200 Sample.audio_body))
               = inl (VObj [("audio",
                       VObj [ ("url", VStr "https://cdn.mmaudio.net/a.wav");
                              ("content_type", VStr "audio/wav");
                              ("file_name", VStr "a.wav");
                              ("file_size", VNum (inject_Z 4096)) ])]))
    by reflexivity.
  assert (H6 : accepts (response_schema TextToAudio)
                 (Some (VObj [("audio",
                         VObj [ ("url", VStr "https://cdn.mmaudio.net/a.wav");
                                ("content_type", VStr "audio/wav");
                                ("file_name", VStr "a.wav");
                                ("file_size", VNum (inject_Z 4096)) ])]))
               = true) by reflexivity.
  split; [exact H1 |]. split; [exact H2 |]. split; [exact H3 |].
  split; [exact H4 |]. split; [exact H6 |].
  destruct (success_envelope_echoes_answer_and_request TextToAudio Sample.env
              (Sample.answering 200 Sample.audio_body) Sample.rain_on_leaves
              Sample.rain_on_leaves_body Sample.unconfigured Sample.configured
              (mkResponse 200 Sample.audio_body) _ H1 H2 H3 H4 H5 H6)
    as (u & ct & fn & fs & d & p & Hrun & _ & (Hu & _) & _ & _ & _ & Hp & _).
  exists u, ct, fn, fs, d, p. split; [exact Hrun |].
  split.
  - injection Hu as <-. reflexivity.
  - injection Hp as <-. reflexivity.
Defined.

Lemma transport_failure_is_an_internal_error_witness :
  ensureConfigured Sample.env Sample.configured
  = (Returned tt, Sample.configured)
  /\ safeParse VideoToAudioInputSchema Sample.surf_clip
     = inl (Some (VObj
         [ ("video_url", VStr "https://cdn.mmaudio.net/surf.mp4");
           ("prompt", VStr "waves");
           ("negative_prompt", VStr "");
           ("num_steps", VNum (inject_Z 25));
           ("duration", VNum (inject_Z 8));
           ("cfg_strength", VNum (9 # 2)) ]))
  /\ fst (callTool Sample.env Sample.unreachable "video_to_audio"
            Sample.surf_clip Sample.configured)
     = Thrown (McpError InternalError
                 ("Tool execution failed: "
                  ++ "connect ECONNREFUSED 127.0.0.1:443")).
Proof.
  split; [reflexivity |]. split; [reflexivity |].
  exact (f_equal fst
           (transport_failure_is_an_internal_error VideoToAudio Sample.env
              Sample.unreachable Sample.surf_clip _ Sample.configured
              Sample.configured "connect ECONNREFUSED 127.0.0.1:443"
              eq_refl eq_refl eq_refl)).
Defined.

Lemma unparsable_answer_is_an_internal_error_witness :
  ensureConfigured Sample.env Sample.configured
  = (Returned tt, Sample.configured)
  /\ safeParse TextToAudioInputSchema Sample.rain_on_leaves
     = inl Sample.rain_on_leaves_body
  /\ ok (mkResponse 200 "<html>maintenance</html>") = true
  /\ JSON_parse "<html>maintenance</html>" = inr "Unexpected token"
  /\ fst (callTool Sample.env
            (Sample.answering 200 "<html>maintenance</html>")
            "text_to_audio" Sample.rain_on_leaves Sample.configured)
     = Thrown (McpError InternalError
                 "Tool execution failed: Unexpected token").
Proof.
  split; [reflexivity |]. split; [reflexivity |].
  split; [reflexivity |]. split; [reflexivity |].
  exact (unparsable_answer_is_an_internal_error TextToAudio Sample.env
           (Sample.answering 200 "<html>maintenance</html>")
           Sample.rain_on_leaves Sample.rain_on_leaves_body
           Sample.configured Sample.configured
           (mkResponse 200 "<html>maintenance</html>") "Unexpected token"
           eq_refl eq_refl eq_refl eq_refl eq_refl).
Defined.

Lemma key_check_reports_bad_answers_witness :
  calls (snd (callTool Sample.env (Sample.answering 503 "busy")
                "validate_api_key" (Some (VObj [])) Sample.configured))
  = (calls Sample.configured
     ++ [credits_request (Some Sample.loaded) (Some (VStr "sk-test"))])%list
  /\ 503 <> 401
  /\ ok (mkResponse 503 "busy") = false
  /\ fst (callTool Sample.env (Sample.answering 503 "busy")
            "validate_api_key" (Some (VObj [])) Sample.configured)
     = Returned (validation_failed "HTTP 503: busy").
Proof.
  assert (Hs : 503 <> 401) by discriminate.
  split; [reflexivity |]. split; [exact Hs |]. split; [reflexivity |].
  exact (proj1 (key_check_reports_bad_answers Sample.env
                  (Sample.answering 503 "busy") (Some (VObj []))
                  Sample.configured
                  (credits_request (Some Sample.loaded)
                     (Some (VStr "sk-test")))
                  (mkResponse 503 "busy") eq_refl eq_refl Hs)
           eq_refl).
Defined.

Lemma key_check_reports_credits_witness :
  calls (snd (callTool (P := Account.platform) Sample.env
                (Sample.answering 200 Account.no_credits_body)
                "validate_api_key" (Some (VObj [])) Sample.configured))
  = (calls Sample.configured
     ++ [credits_request (P := Account.platform) (Some Sample.loaded)
           (Some (VStr "sk-test"))])%list
  /\ ok (mkResponse 200 Account.no_credits_body) = true
  /\ JSON_parse (Platform := Account.platform) Account.no_credits_body
     = inl (VObj [("credits", VNum (inject_Z 0))])
  /\ fst (callTool (P := Account.platform) Sample.env
            (Sample.answering 200 Account.no_credits_body)
            "validate_api_key" (Some (VObj [])) Sample.configured)
     = Returned (key_is_valid (Some (VStr "Unknown"))).
Proof.
  split; [reflexivity |]. split; [reflexivity |]. split; [reflexivity |].
  exact (key_check_reports_credits (P := Account.platform) Sample.env
           (Sample.answering 200 Account.no_credits_body) (Some (VObj []))
           Sample.configured
           (credits_request (P := Account.platform) (Some Sample.loaded)
              (Some (VStr "sk-test")))
           (mkResponse 200 Account.no_credits_body)
           [("credits", VNum (inject_Z 0))]
           eq_refl eq_refl eq_refl eq_refl).
Defined.

Lemma key_checked_is_the_bearer_witness :
  JS.lookup "api_key" [("api_key", VStr "sk-other")]
  = Some (VStr "sk-other")
  /\ "sk-other" <> ""
  /\ (exists t req,
        callTool Sample.env (Sample.answering 401 "") "validate_api_key"
          (Some (VObj [("api_key", VStr "sk-other")])) Sample.configured
        = (Returned t,
           mkWorld (config Sample.configured)
             (calls Sample.configured ++ [req]))
        /\ method req = "GET"
        /\ headers req
           = [ ("Authorization", "Bearer sk-other");
               ("User-Agent", "MMAudio-DXT/1.0.0") ])
  /\ JS.get_prop_opt (config Sample.configured) "apiKey"
     = Some (VStr "sk-test")
  /\ (exists t req,
        callTool Sample.env Sample.unreachable "validate_api_key"
          (Some (VObj [("api_key", VStr "")])) Sample.configured
        = (Returned t,
           mkWorld (config Sample.configured)
             (calls Sample.configured ++ [req]))
        /\ method req = "GET"
        /\ headers req
           = [ ("Authorization", "Bearer sk-test");
               ("User-Agent", "MMAudio-DXT/1.0.0") ])
  /\ callTool Sample.env Sample.unreachable "validate_api_key"
       (Some (VObj [])) Sample.unconfigured
     = (Thrown (McpError InvalidRequest "No API key provided"),
        Sample.unconfigured).
Proof.
  assert (H1 : "sk-other" <> "") by discriminate.
  assert (H2 : "sk-test" <> "") by discriminate.
  split; [reflexivity |]. split; [exact H1 |]. split.
  - exact (proj1 (key_checked_is_the_bearer Sample.env
                    (Sample.answering 401 "")
                    [("api_key", VStr "sk-other")] Sample.configured)
             "sk-other" eq_refl H1).
  - split; [reflexivity |]. split.
    + exact (proj1 (proj2 (key_checked_is_the_bearer Sample.env
                             Sample.unreachable [("api_key", VStr "")]
                             Sample.configured))
               "sk-test" eq_refl eq_refl H2).
    + exact (proj2 (proj2 (key_checked_is_the_bearer Sample.env
                             Sample.unreachable [] Sample.unconfigured))
               eq_refl eq_refl).
Defined.
